(** * University-platform backend: notifications, contest registration, payments

    A shallow embedding of the Express/Mongoose controllers
    [controllers/payment.js], [controllers/contest.js],
    [controllers/notification.js] and [controllers/user.js] together with the
    schema methods and validators of [models/Contest.js],
    [models/Payment.js], [models/User.js] and [models/Notification.js].

    Conventions of the embedding.
    - The MongoDB database is a record of collections; a collection is the
      list of its documents in insertion order.  [insertOne] appends,
      [updateOne] replaces the document carrying the same [_id].
    - An [ObjectId] is a number; [toString] is its (injective) rendering as
      text, used wherever the code compares [x.toString()] with
      [req.user.id] or keys a [Map] by it.
    - JavaScript [Number]s that the modelled paths only compare and copy
      (amounts, fees, capacities, dates as epoch milliseconds) are integers.
      Arithmetic that the database performs on them (the [$sum] of an
      aggregation) and the reading of a string as a number ([Number(s)])
      are not reproduced; they are parameters of the definitions that
      use them.
    - A request field that may be [undefined] has an [option] type.
    - A handler is a function from the request and the database to the
      response and the database after the request; [req.app.get('io')]
      pushes are appended to the [emitted] log.
    - The [createdAt]/[updatedAt] stamps that Mongoose maintains on its own
      and casting failures of malformed ObjectId strings are not modelled;
      a stored participant always carries a [user].
    - The contest controller is the source file [unnamed/part_000], the
      schemas are in [models/Payment.js]. *)

From Stdlib Require Import ZArith Lia Ascii String DecimalString.
From stdpp Require Import base option list strings pretty gmap.

Open Scope string_scope.
Open Scope Z_scope.
Open Scope list_scope.

(** ** Identifiers *)

Definition ObjectId := N.
Bind Scope N_scope with ObjectId.

Definition toString (i : ObjectId) : string := pretty i.

Class Document (A : Type) := oid : A → ObjectId.

(** ** Enumerations of the schemas *)

Inductive Role := student | admin.

Inductive Purpose := purpose_contest | purpose_subscription | purpose_other.

Inductive RelatedModel := model_Contest | model_User.

Inductive PaymentStatus :=
  pay_pending | pay_completed | pay_failed | pay_refunded.

Inductive ParticipantPaymentStatus :=
  part_pending | part_completed | part_failed.

Inductive ContestStatus := upcoming | ongoing | completed | cancelled.

Inductive Recipients := rcp_all | rcp_specific.

Inductive UrgencyLevel := info | important | urgent.

Inductive RelatedTo :=
  rel_blog | rel_contest | rel_payment | rel_general | rel_account.

Inductive NotificationType := type_Blog | type_Contest | type_Payment.

Global Instance Role_eq_dec : EqDecision Role.
Proof. solve_decision. Defined.
Global Instance Purpose_eq_dec : EqDecision Purpose.
Proof. solve_decision. Defined.
Global Instance RelatedModel_eq_dec : EqDecision RelatedModel.
Proof. solve_decision. Defined.
Global Instance PaymentStatus_eq_dec : EqDecision PaymentStatus.
Proof. solve_decision. Defined.
Global Instance ParticipantPaymentStatus_eq_dec :
  EqDecision ParticipantPaymentStatus.
Proof. solve_decision. Defined.
Global Instance ContestStatus_eq_dec : EqDecision ContestStatus.
Proof. solve_decision. Defined.
Global Instance Recipients_eq_dec : EqDecision Recipients.
Proof. solve_decision. Defined.
Global Instance RelatedTo_eq_dec : EqDecision RelatedTo.
Proof. solve_decision. Defined.

Definition purposeString (p : Purpose) : string :=
  match p with
  | purpose_contest => "contest"
  | purpose_subscription => "subscription"
  | purpose_other => "other"
  end.

(** ** Documents *)

Module Payment.
Record t := mk {
  _id : ObjectId;
  user : ObjectId;
  amount : Z;
  purpose : Purpose;
  relatedTo : option ObjectId;
  relatedModel : option RelatedModel;
  status : PaymentStatus;
  razorpayPaymentId : option string;
  razorpayOrderId : option string;
  razorpaySignature : option string;
  receipt : option string
}.

(** [payment.razorpayPaymentId = ..; payment.razorpaySignature = ..;
    payment.status = 'completed'] *)
Definition capture (rpid rsig : option string) (p : t) : t :=
  mk (_id p) (user p) (amount p) (purpose p) (relatedTo p) (relatedModel p)
     pay_completed rpid (razorpayOrderId p) rsig (receipt p).

Definition isSuccessful (p : t) : bool :=
  bool_decide (status p = pay_completed).
End Payment.

Module Participant.
Record t := mk {
  user : ObjectId;
  registeredAt : Z;
  paymentStatus : ParticipantPaymentStatus;
  paymentId : option ObjectId
}.

(** [participants[i].paymentStatus = 'completed';
    participants[i].paymentId = payment._id] *)
Definition settle (pid : ObjectId) (p : t) : t :=
  mk (user p) (registeredAt p) part_completed (Some pid).
End Participant.

Module Contest.
Record t := mk {
  _id : ObjectId;
  title : string;
  startDate : Z;
  endDate : Z;
  registrationDeadline : Z;
  entryFee : Z;
  maxParticipants : option Z;
  participants : list Participant.t;
  status : ContestStatus;
  isActive : bool
}.

Definition with_participants (ps : list Participant.t) (c : t) : t :=
  mk (_id c) (title c) (startDate c) (endDate c) (registrationDeadline c)
     (entryFee c) (maxParticipants c) ps (status c) (isActive c).

Definition participantCount (c : t) : nat := length (participants c).

(** [now <= this.registrationDeadline && this.status !== 'cancelled'] *)
Definition isRegistrationOpen (now : Z) (c : t) : bool :=
  bool_decide (now ≤ registrationDeadline c)
  && negb (bool_decide (status c = cancelled)).

(** [if (!this.maxParticipants) return false;
    return this.participants.length >= this.maxParticipants] *)
Definition isFull (c : t) : bool :=
  match maxParticipants c with
  | None => false
  | Some m =>
      if bool_decide (m = 0) then false
      else bool_decide (m ≤ Z.of_nat (length (participants c)))
  end.
End Contest.

Module Notification.
Record t := mk {
  _id : ObjectId;
  title : string;
  message : string;
  sender : ObjectId;
  recipients : Recipients;
  targetUsers : list ObjectId;
  urgencyLevel : UrgencyLevel;
  isRead : option (gmap string bool);
  relatedTo : RelatedTo;
  relatedId : option ObjectId;
  notificationType : option NotificationType
}.

Definition with_isRead (m : gmap string bool) (n : t) : t :=
  mk (_id n) (title n) (message n) (sender n) (recipients n)
     (targetUsers n) (urgencyLevel n) (Some m) (relatedTo n) (relatedId n)
     (notificationType n).

(** The in-memory part of [markAsRead]:
    [if (!this.isRead) this.isRead = new Map();
     this.isRead.set(userId.toString(), true)] *)
Definition setRead (userId : string) (n : t) : t :=
  with_isRead (<[userId := true]> (default ∅ (isRead n))) n.

(** [if (!this.isRead) return false;
    return this.isRead.get(userId.toString()) || false] *)
Definition isReadByUser (userId : string) (n : t) : bool :=
  match isRead n with
  | None => false
  | Some m => default false (m !! userId)
  end.
End Notification.

Module User.
Record t := mk {
  _id : ObjectId;
  name : string;
  email : string;
  role : Role;
  isActive : bool;
  contests : list ObjectId
}.

Definition push_contest (c : ObjectId) (u : t) : t :=
  mk (_id u) (name u) (email u) (role u) (isActive u) (contests u ++ [c]).

(** [req.user.id]: the string form of the principal's [_id]. *)
Definition id (u : t) : string := toString (_id u).
End User.

Module Blog.
Record t := mk {
  _id : ObjectId;
  title : string;
  author : ObjectId
}.
End Blog.

Global Instance Payment_doc : Document Payment.t := Payment._id.
Global Instance Contest_doc : Document Contest.t := Contest._id.
Global Instance Notification_doc : Document Notification.t := Notification._id.
Global Instance User_doc : Document User.t := User._id.
Global Instance Blog_doc : Document Blog.t := Blog._id.

(** ** The database and the push channel *)

(** [io.to(room).emit('notification', { type, message, data })] *)
Record Emit := mkEmit {
  room : string;
  emit_type : string;
  emit_message : string;
  emit_data : Notification.t
}.

Record DB := mkDB {
  users : list User.t;
  blogs : list Blog.t;
  contests : list Contest.t;
  payments : list Payment.t;
  notifications : list Notification.t;
  emitted : list Emit;
  nextObjectId : ObjectId
}.

Definition with_users (us : list User.t) (w : DB) : DB :=
  mkDB us (blogs w) (contests w) (payments w) (notifications w) (emitted w)
       (nextObjectId w).
Definition with_blogs (bs : list Blog.t) (w : DB) : DB :=
  mkDB (users w) bs (contests w) (payments w) (notifications w) (emitted w)
       (nextObjectId w).
Definition with_contests (cs : list Contest.t) (w : DB) : DB :=
  mkDB (users w) (blogs w) cs (payments w) (notifications w) (emitted w)
       (nextObjectId w).
Definition with_payments (ps : list Payment.t) (w : DB) : DB :=
  mkDB (users w) (blogs w) (contests w) ps (notifications w) (emitted w)
       (nextObjectId w).
Definition with_notifications (ns : list Notification.t) (w : DB) : DB :=
  mkDB (users w) (blogs w) (contests w) (payments w) ns (emitted w)
       (nextObjectId w).
Definition emit (e : list Emit) (w : DB) : DB :=
  mkDB (users w) (blogs w) (contests w) (payments w) (notifications w)
       (emitted w ++ e) (nextObjectId w).

(** [new Model(..)] draws the document's [_id]. *)
Definition newObjectId (w : DB) : ObjectId * DB :=
  (nextObjectId w,
   mkDB (users w) (blogs w) (contests w) (payments w) (notifications w)
        (emitted w) (N.succ (nextObjectId w))).

(** ** Collection operations *)

Section Collections.
Context {A : Type} `{Document A}.

Fixpoint findById (i : ObjectId) (c : list A) : option A :=
  match c with
  | [] => None
  | d :: c' => if bool_decide (oid d = i) then Some d else findById i c'
  end.

(** [Model.findById(x)] where [x] may be [undefined] or [null]. *)
Definition findByIdOpt (i : option ObjectId) (c : list A) : option A :=
  match i with
  | None => None
  | Some i => findById i c
  end.

(** [doc.save()] of a document made by [new Model(..)]. *)
Definition insertOne (d : A) (c : list A) : list A := c ++ [d].

(** [doc.save()] of a document that was read from the collection. *)
Fixpoint updateOne (d : A) (c : list A) : list A :=
  match c with
  | [] => []
  | x :: c' =>
      if bool_decide (oid x = oid d) then d :: c' else x :: updateOne d c'
  end.

(** [doc.deleteOne()] *)
Fixpoint deleteOne (i : ObjectId) (c : list A) : list A :=
  match c with
  | [] => []
  | x :: c' => if bool_decide (oid x = i) then c' else x :: deleteOne i c'
  end.

(** [Model.deleteMany(filter)] *)
Definition deleteMany (matches : A → bool) (c : list A) : list A :=
  filter (λ d, matches d = false) c.
End Collections.

(** [array.findIndex(pred)], [None] for [-1]. *)
Fixpoint findIndex {A : Type} (f : A → bool) (l : list A) : option nat :=
  match l with
  | [] => None
  | x :: l' => if f x then Some O else S <$> findIndex f l'
  end.

(** [array.some(pred)] *)
Definition some {A : Type} (f : A → bool) (l : list A) : bool := existsb f l.

(** ** Responses *)

Inductive Body :=
  | Message (m : string)
  | Errors (errors : list string)
  | Registered (contest : ObjectId) (paymentRequired : bool)
      (paymentStatus : ParticipantPaymentStatus)
      (payment : option (ObjectId * Z * PaymentStatus))
  | PaymentVerified (id : ObjectId) (amount : Z) (status : PaymentStatus)
      (purpose : Purpose)
  | OrderCreated (orderId : string) (orderAmount : Z) (paymentId : ObjectId)
  | NotificationSent (n : Notification.t).

(** [res.status(code).json(body)], or [next(error)]. *)
Inductive Response :=
  | Res (code : N) (body : Body)
  | Next (error : string).

(** A template literal renders [undefined] as the word. *)
Definition tpl (s : option string) : string := default "undefined" s.

(** ** Payment reconciliation ([controllers/payment.js]) *)

(** [req.body] of [POST /api/payments/verify]. *)
Module VerifyBody.
Record t := mk {
  razorpayPaymentId : option string;
  razorpayOrderId : option string;
  razorpaySignature : option string;
  paymentId : option ObjectId
}.
End VerifyBody.

(** The "Payment Successful" notification built by [verifyPayment]; the
    caller is sender and sole target. *)
Definition paymentNotification (i : ObjectId) (caller : User.t)
    (payment : Payment.t) : Notification.t :=
  Notification.mk i "Payment Successful"
    ("Your payment of ₹" +:+ pretty (Payment.amount payment) +:+ " for "
       +:+ purposeString (Payment.purpose payment)
       +:+ " has been processed successfully.")
    (User._id caller) rcp_specific [User._id caller] important (Some ∅)
    rel_payment (Some (Payment._id payment)) (Some type_Payment).

(** [p => p.user.toString() === req.user.id] *)
Definition isParticipant (caller : User.t) (p : Participant.t) : bool :=
  bool_decide (toString (Participant.user p) = User.id caller).

(** The contest side of a captured payment: the participant is looked up
    by [findIndex(p => p.user.toString() === req.user.id)]. *)
Definition settleParticipant (caller : User.t) (payment : Payment.t)
    (w : DB) : DB :=
  if bool_decide (Payment.purpose payment = purpose_contest)
     && bool_decide (Payment.relatedModel payment = Some model_Contest)
  then
    match findByIdOpt (Payment.relatedTo payment) (contests w) with
    | None => w
    | Some contest =>
        match
          findIndex (isParticipant caller) (Contest.participants contest)
        with
        | None => w
        | Some participantIndex =>
            let contest' :=
              Contest.with_participants
                (alter (Participant.settle (Payment._id payment))
                   participantIndex (Contest.participants contest))
                contest in
            with_contests (updateOne contest' (contests w)) w
        end
    end
  else w.

Section Razorpay.
(** [crypto.createHmac('sha256', key).update(data).digest('hex')] and the
    configured key secret. *)
Variable hmacSha256Hex : string → string → string.
Variable razorpayKeySecret : string.

Definition generatedSignature (body : VerifyBody.t) : string :=
  hmacSha256Hex razorpayKeySecret
    (tpl (VerifyBody.razorpayOrderId body) +:+ "|"
       +:+ tpl (VerifyBody.razorpayPaymentId body)).

Definition verifyPayment (caller : User.t) (body : VerifyBody.t) (w : DB)
    : Response * DB :=
  if negb (bool_decide (Some (generatedSignature body)
                        = VerifyBody.razorpaySignature body))
  then (Res 400 (Message "Invalid payment signature"), w)
  else
    match findByIdOpt (VerifyBody.paymentId body) (payments w) with
    | None => (Res 404 (Message "Payment not found"), w)
    | Some payment =>
        let payment :=
          Payment.capture (VerifyBody.razorpayPaymentId body)
            (VerifyBody.razorpaySignature body) payment in
        let w := with_payments (updateOne payment (payments w)) w in
        let w := settleParticipant caller payment w in
        let '(i, w) := newObjectId w in
        let notification := paymentNotification i caller payment in
        let w := with_notifications
                   (insertOne notification (notifications w)) w in
        let w := emit [mkEmit (User.id caller) "PAYMENT_SUCCESS"
                         ("Payment of ₹"
                            +:+ pretty (Payment.amount payment)
                            +:+ " successful")
                         notification] w in
        (Res 200
           (PaymentVerified (Payment._id payment) (Payment.amount payment)
              (Payment.status payment) (Payment.purpose payment)),
         w)
    end.
End Razorpay.

(** [req.body] of [POST /api/payments/create-order]. *)
Module OrderBody.
Record t := mk {
  amount : option Z;
  purpose : option string;
  relatedId : option ObjectId;
  relatedModel : option string
}.
End OrderBody.

(** [response.data] of the provider's order endpoint. *)
Record RazorpayOrder := mkOrder {
  order_id : string;
  order_amount : Z;
  order_currency : string;
  order_receipt : string
}.

(** Enum validators of [PaymentSchema], run by [payment.save()]. *)
Definition parsePurpose (s : string) : option Purpose :=
  if bool_decide (s = "contest") then Some purpose_contest
  else if bool_decide (s = "subscription") then Some purpose_subscription
  else if bool_decide (s = "other") then Some purpose_other
  else None.

(** [relatedModel || null] against [enum: ['Contest', 'User', null]]; the
    outer [option] is the validation verdict. *)
Definition parseRelatedModel (s : option string)
    : option (option RelatedModel) :=
  match s with
  | None => Some None
  | Some s =>
      if bool_decide (s = "") then Some None
      else if bool_decide (s = "Contest") then Some (Some model_Contest)
      else if bool_decide (s = "User") then Some (Some model_User)
      else None
  end.

(** JavaScript truthiness of an optional string. *)
Definition truthy (s : option string) : bool :=
  match s with
  | None => false
  | Some s => negb (bool_decide (s = ""))
  end.

(** [POST /api/payments/create-order].  The call to the provider is the
    function [provider] of the amount in paise and the receipt; [None]
    stands for a rejected request ([axios.post] throws).  The response
    carries the provider's order id and amount as the provider returned
    them (the code divides the amount by 100 for display). *)
Definition createOrder (provider : Z → string → option RazorpayOrder)
    (now : Z) (caller : User.t) (body : OrderBody.t) (w : DB)
    : Response * DB :=
  match OrderBody.amount body with
  | None => (Res 400 (Message "Valid amount is required"), w)
  | Some amount =>
      if bool_decide (amount ≤ 0)
      then (Res 400 (Message "Valid amount is required"), w)
      else if negb (truthy (OrderBody.purpose body))
      then (Res 400 (Message "Purpose is required"), w)
      else if
        bool_decide (is_Some (OrderBody.relatedId body))
        && truthy (OrderBody.relatedModel body)
        && negb
             (bool_decide
                (is_Some
                   (if bool_decide (OrderBody.relatedModel body
                                    = Some "Contest")
                    then findByIdOpt (OrderBody.relatedId body) (contests w)
                    else None)))
      then
        (Res 404 (Message (tpl (OrderBody.relatedModel body)
                             +:+ " not found")), w)
      else
        let receipt :=
          "receipt_" +:+ pretty now +:+ "_" +:+ User.id caller in
        match provider (amount * 100) receipt with
        | None => (Next "AxiosError", w)
        | Some order =>
            match
              parsePurpose (tpl (OrderBody.purpose body)),
              parseRelatedModel (OrderBody.relatedModel body)
            with
            | Some purpose, Some relatedModel =>
                let '(i, w) := newObjectId w in
                let payment :=
                  Payment.mk i (User._id caller) amount purpose
                    (OrderBody.relatedId body) relatedModel pay_pending
                    None (Some (order_id order)) None (Some receipt) in
                (Res 200
                   (OrderCreated (order_id order) (order_amount order) i),
                 with_payments (insertOne payment (payments w)) w)
            | _, _ => (Next "ValidationError", w)
            end
        end
  end.

(** ** Contest registration ([controllers/contest.js]) *)

(** [User.findByIdAndUpdate(id, { $push: { contests: c } })] *)
Definition pushUserContest (i c : ObjectId) (us : list User.t)
    : list User.t :=
  match findById i us with
  | None => us
  | Some u => updateOne (User.push_contest c u) us
  end.

(** [POST /api/contests/:id/register]; [now] is the reading of the clock
    by [new Date()]. *)
Definition registerForContest (now : Z) (caller : User.t)
    (contestId : ObjectId) (w : DB) : Response * DB :=
  match findById contestId (contests w) with
  | None => (Res 404 (Message "Contest not found"), w)
  | Some contest =>
      if negb (Contest.isRegistrationOpen now contest)
      then (Res 400 (Message "Registration for this contest is closed"), w)
      else if Contest.isFull contest
      then
        (Res 400 (Message "This contest has reached maximum participants"),
         w)
      else if some (isParticipant caller) (Contest.participants contest)
      then
        (Res 400 (Message "You are already registered for this contest"), w)
      else
        let fee := bool_decide (0 < Contest.entryFee contest) in
        let '(payment, w) :=
          if fee then
            let '(i, w) := newObjectId w in
            let payment :=
              Payment.mk i (User._id caller) (Contest.entryFee contest)
                purpose_contest (Some (Contest._id contest))
                (Some model_Contest) pay_pending None None None None in
            (Some payment, with_payments (insertOne payment (payments w)) w)
          else (None, w) in
        let participant :=
          Participant.mk (User._id caller) now
            (if fee then part_pending else part_completed)
            (Payment._id <$> payment) in
        let contest :=
          Contest.with_participants
            (Contest.participants contest ++ [participant]) contest in
        let w := with_contests (updateOne contest (contests w)) w in
        let w :=
          with_users
            (pushUserContest (User._id caller) (Contest._id contest)
               (users w)) w in
        (Res 200
           (Registered (Contest._id contest) fee
              (if fee then part_pending else part_completed)
              ((λ p, (Payment._id p, Payment.amount p, Payment.status p))
                 <$> payment)),
         w)
  end.

(** ** Notifications ([controllers/notification.js]) *)

Module NotificationBody.
Record t := mk {
  title : option string;
  message : option string;
  recipients : option string;
  targetUsers : option (list ObjectId);
  urgencyLevel : option string;
  relatedTo : option string;
  relatedId : option ObjectId
}.
End NotificationBody.

(** [String.prototype.trim] on the ASCII white space characters, the
    setter behind [trim: true]. *)
Definition isSpace (a : ascii) : bool :=
  bool_decide (a ∈ [" "; "009"; "010"; "011"; "012"; "013"]%char).

Fixpoint trimStart (s : string) : string :=
  match s with
  | EmptyString => EmptyString
  | String a s' => if isSpace a then trimStart s' else s
  end.

Fixpoint trimEnd (s : string) : string :=
  match s with
  | EmptyString => EmptyString
  | String a s' =>
      match trimEnd s' with
      | EmptyString => if isSpace a then EmptyString else String a EmptyString
      | t => String a t
      end
  end.

Definition trim (s : string) : string := trimEnd (trimStart s).

Definition parseUrgencyLevel (s : string) : option UrgencyLevel :=
  if bool_decide (s = "info") then Some info
  else if bool_decide (s = "important") then Some important
  else if bool_decide (s = "urgent") then Some urgent
  else None.

Definition parseRelatedTo (s : string) : option RelatedTo :=
  if bool_decide (s = "blog") then Some rel_blog
  else if bool_decide (s = "contest") then Some rel_contest
  else if bool_decide (s = "payment") then Some rel_payment
  else if bool_decide (s = "general") then Some rel_general
  else if bool_decide (s = "account") then Some rel_account
  else None.

(** [x || fallback] on an optional string. *)
Definition orElse (s : option string) (fallback : string) : string :=
  if truthy s then tpl s else fallback.

(** [User.find({ role: 'student' }).select('_id')] mapped to the ids. *)
Definition studentIds (us : list User.t) : list ObjectId :=
  User._id <$> filter (λ u, User.role u = student) us.

(** The guard of the recipients branch of [createNotification]:
    [recipients === 'specific' && targetUsers && targetUsers.length > 0]. *)
Definition isSpecific (body : NotificationBody.t) : bool :=
  bool_decide (NotificationBody.recipients body = Some "specific")
  && match NotificationBody.targetUsers body with
     | None => false
     | Some targetUsers => bool_decide (0 < length targetUsers)%nat
     end.

(** The recipients branch: the explicit list under the guard, otherwise
    mode [all] with every current student. *)
Definition resolveRecipients (body : NotificationBody.t) (w : DB)
    : Recipients * list ObjectId :=
  if isSpecific body
  then (rcp_specific, default [] (NotificationBody.targetUsers body))
  else (rcp_all, studentIds (users w)).

(** The [relatedId]/[notificationType] branch of [createNotification]. *)
Definition resolveRelation (body : NotificationBody.t)
    : option ObjectId * option NotificationType :=
  if truthy (NotificationBody.relatedTo body)
     && negb (bool_decide (NotificationBody.relatedTo body = Some "general"))
     && bool_decide (is_Some (NotificationBody.relatedId body))
  then
    (NotificationBody.relatedId body,
     if bool_decide (NotificationBody.relatedTo body = Some "blog")
     then Some type_Blog
     else if bool_decide (NotificationBody.relatedTo body = Some "contest")
     then Some type_Contest
     else if bool_decide (NotificationBody.relatedTo body = Some "payment")
     then Some type_Payment
     else None)
  else (None, None).

(** [new Notification(notificationData)] with the validation that
    [save()] runs: [title] (trimmed) and [message] are required, the two
    enumerated fields must parse. *)
Definition newNotification (i : ObjectId) (caller : User.t)
    (body : NotificationBody.t) (w : DB) : option Notification.t :=
  let title := trim (tpl (NotificationBody.title body)) in
  let message := tpl (NotificationBody.message body) in
  let '(recipients, targetUsers) := resolveRecipients body w in
  let '(relatedId, notificationType) := resolveRelation body in
  if bool_decide (is_Some (NotificationBody.title body))
     && negb (bool_decide (title = ""))
     && truthy (NotificationBody.message body)
  then
    match
      parseUrgencyLevel (orElse (NotificationBody.urgencyLevel body) "info"),
      parseRelatedTo (orElse (NotificationBody.relatedTo body) "general")
    with
    | Some urgencyLevel, Some relatedTo =>
        Some (Notification.mk i title message (User._id caller) recipients
                targetUsers urgencyLevel (Some ∅) relatedTo relatedId
                notificationType)
    | _, _ => None
    end
  else None.

(** [POST /api/notifications]; [errors] is [validationResult(req)], the
    outcome of the route's express-validator chain. *)
Definition createNotification (errors : list string) (caller : User.t)
    (body : NotificationBody.t) (w : DB) : Response * DB :=
  if negb (bool_decide (errors = [])) then (Res 400 (Errors errors), w)
  else
    let '(i, w') := newObjectId w in
    match newNotification i caller body w with
    | None => (Next "ValidationError", w)
    | Some notification =>
        let w := with_notifications
                   (insertOne notification (notifications w')) w' in
        let w :=
          emit ((λ userId,
                  mkEmit (toString userId) "NEW_NOTIFICATION"
                    (Notification.title notification) notification)
                  <$> Notification.targetUsers notification) w in
        (Res 201 (NotificationSent notification), w)
    end.

(** The validation chain of [routes/notifications.js], as the list of the
    [path]s that [validationResult(req).array()] reports.  A standard
    validator of express-validator ([isEmpty], [isIn]) is applied to the
    string form of the value, [undefined] giving the empty string, and to
    each element when the value is an array; [isArray] is applied to the
    value itself; [optional()] skips an [undefined] value. *)
Definition notificationRouteErrors (body : NotificationBody.t)
    : list string :=
  (if truthy (NotificationBody.title body) then [] else ["title"])
  ++ (if truthy (NotificationBody.message body) then [] else ["message"])
  ++ (if bool_decide (NotificationBody.recipients body = Some "all")
         || bool_decide (NotificationBody.recipients body = Some "specific")
      then [] else ["recipients"])
  ++ (if bool_decide (NotificationBody.recipients body = Some "specific")
      then
        match NotificationBody.targetUsers body with
        | None => ["targetUsers"; "targetUsers"]
        | Some _ => []
        end
      else [])
  ++ match NotificationBody.urgencyLevel body with
     | None => []
     | Some s =>
         if bool_decide (is_Some (parseUrgencyLevel s)) then []
         else ["urgencyLevel"]
     end.

(** The route [POST /api/notifications] behind [auth]: [isAdmin], the
    validation chain, then the controller. *)
Definition postNotification (caller : User.t) (body : NotificationBody.t)
    (w : DB) : Response * DB :=
  if negb (bool_decide (User.role caller = admin))
  then (Res 403 (Message "Access denied. Admin privileges required."), w)
  else createNotification (notificationRouteErrors body) caller body w.

(** [NotificationSchema.methods.markAsRead]: set the entry, then save. *)
Definition Notification_markAsRead (userId : string) (n : Notification.t)
    (ns : list Notification.t) : list Notification.t :=
  updateOne (Notification.setRead userId n) ns.

(** [PUT /api/notifications/:id/read] *)
Definition markAsRead (caller : User.t) (notificationId : ObjectId)
    (w : DB) : Response * DB :=
  match findById notificationId (notifications w) with
  | None => (Res 404 (Message "Notification not found"), w)
  | Some notification =>
      if negb (some (λ userId,
                       bool_decide (toString userId = User.id caller))
                 (Notification.targetUsers notification))
      then
        (Res 403 (Message "Not authorized to access this notification"), w)
      else
        (Res 200 (Message "Notification marked as read"),
         with_notifications
           (Notification_markAsRead (User.id caller) notification
              (notifications w)) w)
  end.

(** ** User deletion ([controllers/user.js]) *)

(** [Contest.updateMany({ 'participants.user': u },
                        { $pull: { participants: { user: u } } })] *)
Definition pullParticipant (u : ObjectId) (c : Contest.t) : Contest.t :=
  Contest.with_participants
    (filter (λ p, Participant.user p ≠ u) (Contest.participants c)) c.

(** The filter [{ $or: [{ sender: u }, { targetUsers: u }] }]. *)
Definition mentions (u : ObjectId) (n : Notification.t) : bool :=
  bool_decide (Notification.sender n = u)
  || bool_decide (u ∈ Notification.targetUsers n).

(** [DELETE /api/users/:id] *)
Definition deleteUser (caller : User.t) (userId : ObjectId) (w : DB)
    : Response * DB :=
  match findById userId (users w) with
  | None => (Res 404 (Message "User not found"), w)
  | Some user =>
      if bool_decide (toString (User._id user) = User.id caller)
      then (Res 400 (Message "Cannot delete your own account"), w)
      else
        let w :=
          with_blogs
            (deleteMany (λ b, bool_decide (Blog.author b = User._id user))
               (blogs w)) w in
        let w :=
          with_contests (pullParticipant (User._id user) <$> contests w) w in
        let w :=
          with_notifications
            (deleteMany (mentions (User._id user)) (notifications w)) w in
        let w := with_users (deleteOne (User._id user) (users w)) w in
        (Res 200 (Message "User and all associated data deleted"), w)
  end.

(** ** The operations as one transition function *)

Section Operations.
Variable hmacSha256Hex : string → string → string.
Variable razorpayKeySecret : string.

Inductive Op :=
  | CreateOrder (provider : Z → string → option RazorpayOrder) (now : Z)
      (caller : User.t) (body : OrderBody.t)
  | VerifyPayment (caller : User.t) (body : VerifyBody.t)
  | RegisterForContest (now : Z) (caller : User.t) (contestId : ObjectId)
  | CreateNotification (errors : list string) (caller : User.t)
      (body : NotificationBody.t)
  | MarkAsRead (caller : User.t) (notificationId : ObjectId)
  | DeleteUser (caller : User.t) (userId : ObjectId).

Definition step (op : Op) (w : DB) : Response * DB :=
  match op with
  | CreateOrder provider now caller body =>
      createOrder provider now caller body w
  | VerifyPayment caller body =>
      verifyPayment hmacSha256Hex razorpayKeySecret caller body w
  | RegisterForContest now caller contestId =>
      registerForContest now caller contestId w
  | CreateNotification errors caller body =>
      createNotification errors caller body w
  | MarkAsRead caller notificationId => markAsRead caller notificationId w
  | DeleteUser caller userId => deleteUser caller userId w
  end.
End Operations.

(** ** Changes of the Payment collection *)

(** How one operation may change the Payment collection: not at all, by
    appending one pending payment, or by capturing one stored payment. *)
Inductive PaymentsChange (ps ps' : list Payment.t) : Prop :=
  | payments_kept : ps' = ps → PaymentsChange ps ps'
  | payments_added (p : Payment.t) :
      ps' = ps ++ [p] → Payment.status p = pay_pending →
      PaymentsChange ps ps'
  | payments_captured (p : Payment.t) (rpid rsig : option string) :
      findById (Payment._id p) ps = Some p →
      ps' = updateOne (Payment.capture rpid rsig p) ps →
      PaymentsChange ps ps'.

(** * Further schema methods, middleware and handlers *)

(** The records above carry the fields that the modelled handlers read,
    compare or write conditionally.  Fields that a handler only copies
    from the request into a document (a contest's description, location,
    category, featured image and organizers) are not stored; where the
    schema requires such a field, the request body carries it and the
    validation run by [save()] looks at it. *)

(** The answer of a handler whose success body carries data:
    [res.status(code).json(payload)], [res.status(code).json({ message })],
    [res.status(400).json({ errors })] or [next(error)]. *)
Inductive Reply (A : Type) :=
  | Sent (code : N) (payload : A)
  | Refused (code : N) (message : string)
  | Invalid (errors : list string)
  | Thrown (error : string).
Arguments Sent {A} code payload.
Arguments Refused {A} code message.
Arguments Invalid {A} errors.
Arguments Thrown {A} error.

(** The double quote character of the message templates. *)
Definition dquote : string := String "034"%char EmptyString.

(** ** Schema methods ([models/Contest.js], [models/User.js],
       [models/Payment.js]) *)

Definition Contest_with_status (s : ContestStatus) (c : Contest.t)
    : Contest.t :=
  Contest.mk (Contest._id c) (Contest.title c) (Contest.startDate c)
    (Contest.endDate c) (Contest.registrationDeadline c) (Contest.entryFee c)
    (Contest.maxParticipants c) (Contest.participants c) s
    (Contest.isActive c).

(** [ContestSchema.methods.updateStatus], the document after the call;
    [now] is [new Date()].  A cancelled contest is returned as it is. *)
Definition Contest_updateStatus (now : Z) (c : Contest.t) : Contest.t :=
  if bool_decide (Contest.status c = cancelled) then c
  else if bool_decide (now < Contest.startDate c)
  then Contest_with_status upcoming c
  else if bool_decide (Contest.startDate c ≤ now)
          && bool_decide (now ≤ Contest.endDate c)
  then Contest_with_status ongoing c
  else if bool_decide (Contest.endDate c < now)
  then Contest_with_status completed c
  else c.

(** [UserSchema.methods.isAdmin] and [isStudent]. *)
Definition User_isAdmin (u : User.t) : bool :=
  bool_decide (User.role u = admin).
Definition User_isStudent (u : User.t) : bool :=
  bool_decide (User.role u = student).

Definition User_with_role (r : Role) (u : User.t) : User.t :=
  User.mk (User._id u) (User.name u) (User.email u) r (User.isActive u)
    (User.contests u).

(** The [$match] stage of [PaymentSchema.statics.getTotalRevenue] and the
    field its [$group] stage reads: the amounts of the completed
    payments, in collection order. *)
Definition completedAmounts (ps : list Payment.t) : list Z :=
  Payment.amount <$> filter (λ p, Payment.status p = pay_completed) ps.

(** [PaymentSchema.statics.getTotalRevenue].  The [$sum] accumulator adds
    in the server's floating-point arithmetic; that arithmetic is not
    reproduced here, [sum] stands for it and [Number] for its results.
    [$group] yields no document when nothing matched, and the method then
    returns the literal 0. *)
Section Revenue.
Variable Number : Type.
Variable zero : Number.
Variable sum : list Z → Number.

Definition getTotalRevenue (ps : list Payment.t) : Number :=
  match completedAmounts ps with
  | [] => zero
  | amounts => sum amounts
  end.
End Revenue.

Arguments getTotalRevenue {Number} zero sum ps.

(** [Model.countDocuments(query)] *)
Definition countDocuments {A : Type} (query : A → bool) (c : list A) : nat :=
  length (filter (λ d, query d = true) c).

(** ** Role middleware ([middleware/rbac.js]) and the routes

    A middleware answers or calls [next()]; [None] is [next()].  The
    [user] argument is [req.user]: what [passport.authenticate('jwt')]
    attached, [None] when the request carries no valid token. *)

Definition isAdmin (user : option User.t) : option Response :=
  match user with
  | None => Some (Res 401 (Message "Authentication required"))
  | Some u =>
      if negb (bool_decide (User.role u = admin))
      then Some (Res 403 (Message "Access denied. Admin privileges required."))
      else None
  end.

Definition isStudent (user : option User.t) : option Response :=
  match user with
  | None => Some (Res 401 (Message "Authentication required"))
  | Some u =>
      if negb (bool_decide (User.role u = student))
      then
        Some (Res 403 (Message "Access denied. Student privileges required."))
      else None
  end.

(** [isOwnerOrAdmin(getResourceOwnerId)]; [ownerId] is what the getter
    resolves to, [None] for [null]. *)
Definition isOwnerOrAdmin (ownerId : option ObjectId) (user : option User.t)
    : option Response :=
  match user with
  | None => Some (Res 401 (Message "Authentication required"))
  | Some u =>
      if bool_decide (User.role u = admin) then None
      else
        match ownerId with
        | Some o =>
            if negb (bool_decide (toString o = User.id u))
            then
              Some (Res 403
                      (Message
                         "Access denied. You are not the owner of this resource."))
            else None
        | None =>
            Some (Res 403
                    (Message
                       "Access denied. You are not the owner of this resource."))
        end
  end.

(** The guard of [PUT] and [DELETE /api/blogs/:id]:
    [isOwnerOrAdmin(req => blog ? blog.author : null)]. *)
Definition blogOwnerGuard (user : option User.t) (blogId : ObjectId)
    (w : DB) : option Response :=
  isOwnerOrAdmin (Blog.author <$> findById blogId (blogs w)) user.

(** [router.post('/:id/register', [auth, isStudent], registerForContest)];
    passport answers 401 when it attaches no user. *)
Definition registerRoute (now : Z) (user : option User.t)
    (contestId : ObjectId) (w : DB) : Response * DB :=
  match user with
  | None => (Res 401 (Message "Unauthorized"), w)
  | Some caller =>
      match isStudent user with
      | Some refusal => (refusal, w)
      | None => registerForContest now caller contestId w
      end
  end.

(** [router.delete('/:id', [auth, isAdmin], deleteUser)] *)
Definition deleteUserRoute (user : option User.t) (userId : ObjectId)
    (w : DB) : Response * DB :=
  match user with
  | None => (Res 401 (Message "Unauthorized"), w)
  | Some caller =>
      match isAdmin user with
      | Some refusal => (refusal, w)
      | None => deleteUser caller userId w
      end
  end.

(** ** Notifications, continued ([controllers/notification.js]) *)

(** [DELETE /api/notifications/:id] *)
Definition deleteNotification (notificationId : ObjectId) (w : DB)
    : Response * DB :=
  match findById notificationId (notifications w) with
  | None => (Res 404 (Message "Notification not found"), w)
  | Some notification =>
      (Res 200 (Message "Notification removed"),
       with_notifications
         (deleteOne (Notification._id notification) (notifications w)) w)
  end.

(** The query of [getMyNotifications]:
    [{ targetUsers: { $in: [req.user.id] } }], with
    [isRead.<id>: { $ne: true }] added when [unreadOnly === 'true']. *)
Definition myNotificationsQuery (caller : User.t) (unreadOnly : option string)
    (n : Notification.t) : bool :=
  bool_decide (User._id caller ∈ Notification.targetUsers n)
  && (if bool_decide (unreadOnly = Some "true")
      then
        negb (bool_decide
                (Notification.isRead n ≫= (.!! User.id caller) = Some true))
      else true).

(** [pagination.total] of [getMyNotifications]:
    [Notification.countDocuments(query)]. *)
Definition myNotificationsTotal (caller : User.t) (unreadOnly : option string)
    (w : DB) : nat :=
  countDocuments (myNotificationsQuery caller unreadOnly) (notifications w).

(** ** Users, continued ([controllers/user.js]) *)

(** *** Regular expressions

    The patterns that the schemas match strings against, and a matcher
    by derivatives.  [RegExp_test r s] is [/^r$/.test(s)]. *)
Inductive RegExp :=
  | re_none
  | re_eps
  | re_class (p : ascii → bool)
  | re_seq (r s : RegExp)
  | re_alt (r s : RegExp)
  | re_star (r : RegExp).

(** [r+], [r?] and a literal character. *)
Definition re_plus (r : RegExp) : RegExp := re_seq r (re_star r).
Definition re_opt (r : RegExp) : RegExp := re_alt r re_eps.
Definition re_char (c : ascii) : RegExp := re_class (Ascii.eqb c).

(** Does the pattern match the empty string? *)
Fixpoint nullable (r : RegExp) : bool :=
  match r with
  | re_none => false
  | re_eps => true
  | re_class _ => false
  | re_seq r s => nullable r && nullable s
  | re_alt r s => nullable r || nullable s
  | re_star _ => true
  end.

(** The pattern of what may follow the character [a]. *)
Fixpoint derive (a : ascii) (r : RegExp) : RegExp :=
  match r with
  | re_none => re_none
  | re_eps => re_none
  | re_class p => if p a then re_eps else re_none
  | re_seq r s =>
      if nullable r
      then re_alt (re_seq (derive a r) s) (derive a s)
      else re_seq (derive a r) s
  | re_alt r s => re_alt (derive a r) (derive a s)
  | re_star r => re_seq (derive a r) (re_star r)
  end.

Fixpoint RegExp_test (r : RegExp) (s : string) : bool :=
  match s with
  | EmptyString => nullable r
  | String a s => RegExp_test (derive a r) s
  end.

(** The strings a pattern denotes. *)
Inductive Matches : RegExp → string → Prop :=
  | matches_eps : Matches re_eps ""
  | matches_class (p : ascii → bool) (a : ascii) :
      p a = true → Matches (re_class p) (String a "")
  | matches_seq (r s : RegExp) (x y : string) :
      Matches r x → Matches s y → Matches (re_seq r s) (x +:+ y)
  | matches_alt_l (r s : RegExp) (x : string) :
      Matches r x → Matches (re_alt r s) x
  | matches_alt_r (r s : RegExp) (x : string) :
      Matches s x → Matches (re_alt r s) x
  | matches_star_nil (r : RegExp) : Matches (re_star r) ""
  | matches_star_cons (r : RegExp) (x y : string) :
      Matches r x → Matches (re_star r) y → Matches (re_star r) (x +:+ y).

(** [\w]: a letter, a digit or the underscore. *)
Definition wordChar (a : ascii) : bool :=
  let c := N_of_ascii a in
  ((48 <=? c) && (c <=? 57) || (65 <=? c) && (c <=? 90)
   || (c =? 95) || (97 <=? c) && (c <=? 122))%N.

(** [[\.-]]: a dot or a hyphen. *)
Definition dotOrHyphen (a : ascii) : bool :=
  Ascii.eqb a "." || Ascii.eqb a "-".

(** The [match] pattern of [UserSchema.email]:
    [/^\w+([\.-]?\w+)*@\w+([\.-]?\w+)*(\.\w{2,3})+$/]. *)
Definition emailPattern : RegExp :=
  let w := re_class wordChar in
  let labels := re_star (re_seq (re_opt (re_class dotOrHyphen)) (re_plus w)) in
  re_seq (re_plus w)
    (re_seq labels
       (re_seq (re_char "@")
          (re_seq (re_plus w)
             (re_seq labels
                (re_plus
                   (re_seq (re_char ".")
                      (re_seq w (re_seq w (re_opt w))))))))).

Section UserValidation.
(** The validators of the paths that [User.t] does not carry ([bio]:
    at most 500 characters; [year]: one of the schema's values), as
    their verdict on the stored document with the given id.  No modelled
    operation writes these paths. *)
Variable profileValid : ObjectId → bool.

(** The validation that [user.save()] runs on a document loaded by
    [findById]: every loaded path is validated, not only the modified
    one.  [name] and [email] are required, [email] must match the
    schema's pattern; [password] is not selected and so not validated;
    [role] holds one of its two values by construction. *)
Definition User_validate (u : User.t) : bool :=
  negb (bool_decide (User.name u = ""))
  && negb (bool_decide (User.email u = ""))
  && RegExp_test emailPattern (User.email u)
  && profileValid (User._id u).

(** [PUT /api/users/:id/make-admin]; the success body carries the user's
    id, name, email and role.  When [user.save()] rejects the document
    the handler answers [next(error)] and has written nothing. *)
Definition makeAdmin (caller : User.t) (userId : ObjectId) (w : DB)
    : Reply (ObjectId * string * string * Role) * DB :=
  match findById userId (users w) with
  | None => (Refused 404 "User not found", w)
  | Some user =>
      if bool_decide (User.role user = admin)
      then (Refused 400 "User is already an admin", w)
      else
        let user := User_with_role admin user in
        if negb (User_validate user) then (Thrown "ValidationError", w)
        else
        let w := with_users (updateOne user (users w)) w in
        let '(i, w) := newObjectId w in
        let notification :=
          Notification.mk i "Role Upgraded to Admin"
            "You have been granted administrator privileges on the platform."
            (User._id caller) rcp_specific [User._id user] important (Some ∅)
            rel_account None None in
        let w := with_notifications
                   (insertOne notification (notifications w)) w in
        let w := emit [mkEmit (toString (User._id user)) "ROLE_CHANGE"
                         "You are now an admin" notification] w in
        (Sent 200
           (User._id user, User.name user, User.email user, User.role user),
         w)
  end.
End UserValidation.

(** ** Contests, continued ([controllers/contest.js]) *)

(** A JSON value sent for a field that the schema declares a Number: a
    number, a string, a boolean, or an array or object.  An absent or
    [null] field is [None] of the option. *)
Inductive JsonValue :=
  | json_number (z : Z)
  | json_string (s : string)
  | json_bool (b : bool)
  | json_compound.

(** JavaScript truthiness, as [value || fallback] tests it. *)
Definition JsonValue_truthy (v : option JsonValue) : bool :=
  match v with
  | None => false
  | Some (json_number z) => negb (bool_decide (z = 0))
  | Some (json_string s) => negb (bool_decide (s = ""))
  | Some (json_bool b) => b
  | Some json_compound => true
  end.

(** [req.body] of [POST /api/contests]; the dates are the instants the ISO
    strings denote.  The route validates neither [entryFee] nor
    [maxParticipants], which arrive as the JSON values the client sent. *)
Module ContestBody.
Record t := mk {
  title : option string;
  description : option string;
  startDate : option Z;
  endDate : option Z;
  registrationDeadline : option Z;
  entryFee : option JsonValue;
  maxParticipants : option JsonValue;
  category : option string
}.
End ContestBody.

Section NumberCast.
(** [Number(s)] of a non-empty string, an integer as every number of
    the model; [None] is NaN. *)
Variable Number_ofString : string → option Z.

(** Mongoose's cast of a value to the schema type Number; [None] is a
    CastError, which [save()] reports as a validation error.  A string
    or boolean is passed to [Number]; the empty string is cast to
    [null], which the callers below never pass; an array or object is
    refused. *)
Definition castNumber (v : JsonValue) : option Z :=
  match v with
  | json_number z => Some z
  | json_string s => Number_ofString s
  | json_bool b => Some (if b then 1 else 0)
  | json_compound => None
  end.

(** [new Contest({ .., entryFee: entryFee || 0,
    maxParticipants: maxParticipants || null, status: 'upcoming',
    isActive: true })] with the required-field validation of [save()]. *)
Definition newContest (i : ObjectId) (body : ContestBody.t)
    : option Contest.t :=
  match
    ContestBody.title body, ContestBody.startDate body,
    ContestBody.endDate body, ContestBody.registrationDeadline body
  with
  | Some title, Some startDate, Some endDate, Some registrationDeadline =>
      if negb (bool_decide (trim title = ""))
         && truthy (ContestBody.description body)
         && truthy (ContestBody.category body)
      then
        entryFee ←
          match ContestBody.entryFee body with
          | Some v => if JsonValue_truthy (Some v) then castNumber v
                      else Some 0
          | None => Some 0
          end;
        maxParticipants ←
          match ContestBody.maxParticipants body with
          | Some v => if JsonValue_truthy (Some v) then Some <$> castNumber v
                      else Some None
          | None => Some None
          end;
        Some (Contest.mk i (trim title) startDate endDate
                registrationDeadline entryFee maxParticipants
                [] upcoming true)
      else None
  | _, _, _, _ => None
  end.
End NumberCast.

(** [req.body] of [PUT /api/contests/:id], without the fields that are
    only copied. *)
Module ContestPatch.
Record t := mk {
  title : option string;
  startDate : option Z;
  endDate : option Z;
  registrationDeadline : option Z;
  entryFee : option Z;
  maxParticipants : option Z;
  status : option string;
  isActive : option bool
}.
End ContestPatch.

Definition parseContestStatus (s : string) : option ContestStatus :=
  if bool_decide (s = "upcoming") then Some upcoming
  else if bool_decide (s = "ongoing") then Some ongoing
  else if bool_decide (s = "completed") then Some completed
  else if bool_decide (s = "cancelled") then Some cancelled
  else None.

(** The field updates of [updateContest] followed by the validation of
    [contest.save()]; [None] when the save is rejected. *)
Definition applyPatch (patch : ContestPatch.t) (c : Contest.t)
    : option Contest.t :=
  let title :=
    if truthy (ContestPatch.title patch)
    then trim (tpl (ContestPatch.title patch)) else Contest.title c in
  let status :=
    if truthy (ContestPatch.status patch)
    then parseContestStatus (tpl (ContestPatch.status patch))
    else Some (Contest.status c) in
  match status with
  | Some status =>
      if bool_decide (title = "") then None
      else
        Some (Contest.mk (Contest._id c) title
                (default (Contest.startDate c) (ContestPatch.startDate patch))
                (default (Contest.endDate c) (ContestPatch.endDate patch))
                (default (Contest.registrationDeadline c)
                   (ContestPatch.registrationDeadline patch))
                (default (Contest.entryFee c) (ContestPatch.entryFee patch))
                (match ContestPatch.maxParticipants patch with
                 | Some m => Some m
                 | None => Contest.maxParticipants c
                 end)
                (Contest.participants c) status
                (default (Contest.isActive c) (ContestPatch.isActive patch)))
  | None => None
  end.

(** The "Contest Updated" notification and its pushes. *)
Definition notifyParticipants (caller : User.t) (contest : Contest.t)
    (w : DB) : DB :=
  if bool_decide (0 < length (Contest.participants contest))%nat then
    let participantIds := Participant.user <$> Contest.participants contest in
    let '(i, w) := newObjectId w in
    let notification :=
      Notification.mk i "Contest Updated"
        ("The contest " +:+ dquote +:+ Contest.title contest +:+ dquote
           +:+ " has been updated. Please check the details.")
        (User._id caller) rcp_specific participantIds important (Some ∅)
        rel_contest (Some (Contest._id contest)) (Some type_Contest) in
    let w := with_notifications
               (insertOne notification (notifications w)) w in
    emit ((λ userId,
             mkEmit (toString userId) "CONTEST_UPDATE"
               ("Contest " +:+ dquote +:+ Contest.title contest +:+ dquote
                  +:+ " has been updated")
               notification) <$> participantIds) w
  else w.

(** [PUT /api/contests/:id] *)
Definition updateContest (errors : list string) (caller : User.t)
    (contestId : ObjectId) (patch : ContestPatch.t) (w : DB)
    : Reply Contest.t * DB :=
  if negb (bool_decide (errors = [])) then (Invalid errors, w)
  else
    match findById contestId (contests w) with
    | None => (Refused 404 "Contest not found", w)
    | Some contest =>
        match applyPatch patch contest with
        | None => (Thrown "ValidationError", w)
        | Some contest =>
            let w := with_contests (updateOne contest (contests w)) w in
            (Sent 200 contest, notifyParticipants caller contest w)
        end
    end.

(** [contest.participants.find(p => p.user._id.toString() === req.user.id)]
    on the contest populated with [participants.user]: a participant whose
    user document no longer exists is populated with [null], and reading
    its [_id] throws.  The outer [None] is the throw. *)
Fixpoint findRegistration (us : list User.t) (callerId : string)
    (ps : list Participant.t) : option (option Participant.t) :=
  match ps with
  | [] => Some None
  | p :: ps' =>
      match findById (Participant.user p) us with
      | None => None
      | Some u =>
          if bool_decide (toString (User._id u) = callerId) then Some (Some p)
          else findRegistration us callerId ps'
      end
  end.

(** [GET /api/contests/:id]; the success body carries the contest,
    [isRegistered] and [registrationStatus]. *)
Definition getContestById (now : Z) (user : option User.t)
    (contestId : ObjectId) (w : DB)
    : Reply (Contest.t * bool * option ParticipantPaymentStatus) * DB :=
  match findById contestId (contests w) with
  | None => (Refused 404 "Contest not found", w)
  | Some contest =>
      let contest := Contest_updateStatus now contest in
      let w := with_contests (updateOne contest (contests w)) w in
      match user with
      | None => (Sent 200 (contest, false, None), w)
      | Some caller =>
          match
            findRegistration (users w) (User.id caller)
              (Contest.participants contest)
          with
          | None => (Thrown "TypeError", w)
          | Some None => (Sent 200 (contest, false, None), w)
          | Some (Some participant) =>
              (Sent 200
                 (contest, true,
                  Some (Participant.paymentStatus participant)), w)
          end
      end
  end.

(** [router.get('/:id', contestController.getContestById)]: the route
    runs no authentication middleware, so [req.user] is never set. *)
Definition getContestRoute (now : Z) (contestId : ObjectId) (w : DB)
    : Reply (Contest.t * bool * option ParticipantPaymentStatus) * DB :=
  getContestById now None contestId w.

Section ContestAnnouncement.
(** [new Date(x).toLocaleDateString()], which depends on the host's
    locale. *)
Variable toLocaleDateString : Z → string.
(** [Number(s)] of a non-empty string; [None] is NaN. *)
Variable Number_ofString : string → option Z.

(** [POST /api/contests] *)
Definition createContest (errors : list string) (caller : User.t)
    (body : ContestBody.t) (w : DB) : Reply Contest.t * DB :=
  if negb (bool_decide (errors = [])) then (Invalid errors, w)
  else
    let '(i, w') := newObjectId w in
    match newContest Number_ofString i body with
    | None => (Thrown "ValidationError", w)
    | Some contest =>
        let w := with_contests (insertOne contest (contests w')) w' in
        let students := studentIds (users w) in
        if bool_decide (0 < length students)%nat then
          let '(j, w) := newObjectId w in
          let notification :=
            Notification.mk j "New Contest Announced"
              ("A new contest " +:+ dquote +:+ tpl (ContestBody.title body)
                 +:+ dquote
                 +:+ " has been announced. Registration is open until "
                 +:+ toLocaleDateString (Contest.registrationDeadline contest)
                 +:+ ".")
              (User._id caller) rcp_specific students important (Some ∅)
              rel_contest (Some (Contest._id contest)) (Some type_Contest) in
          let w := with_notifications
                     (insertOne notification (notifications w)) w in
          let w :=
            emit ((λ student,
                     mkEmit (toString student) "NEW_CONTEST"
                       ("New contest " +:+ dquote
                          +:+ tpl (ContestBody.title body) +:+ dquote
                          +:+ " announced")
                       notification) <$> students) w in
          (Sent 201 contest, w)
        else (Sent 201 contest, w)
    end.
End ContestAnnouncement.

(** ** Every state-changing operation *)

Section AllOperations.
Variable hmacSha256Hex : string → string → string.
Variable razorpayKeySecret : string.
Variable toLocaleDateString : Z → string.
Variable Number_ofString : string → option Z.
Variable profileValid : ObjectId → bool.

Inductive Call :=
  | Claimed (op : Op)
  | CreateContest (errors : list string) (caller : User.t)
      (body : ContestBody.t)
  | UpdateContest (errors : list string) (caller : User.t)
      (contestId : ObjectId) (patch : ContestPatch.t)
  | GetContestById (now : Z) (user : option User.t) (contestId : ObjectId)
  | MakeAdmin (caller : User.t) (userId : ObjectId)
  | DeleteNotification (notificationId : ObjectId).

(** The database after a call. *)
Definition run (c : Call) (w : DB) : DB :=
  match c with
  | Claimed op => (step hmacSha256Hex razorpayKeySecret op w).2
  | CreateContest errors caller body =>
      (createContest toLocaleDateString Number_ofString errors caller body
         w).2
  | UpdateContest errors caller contestId patch =>
      (updateContest errors caller contestId patch w).2
  | GetContestById now user contestId =>
      (getContestById now user contestId w).2
  | MakeAdmin caller userId => (makeAdmin profileValid caller userId w).2
  | DeleteNotification notificationId =>
      (deleteNotification notificationId w).2
  end.
End AllOperations.

(** ** Predicates on the stored data *)

(** A user document with this id is stored. *)
Definition knows (us : list User.t) (i : ObjectId) : Prop :=
  is_Some (findById i us).

(** No principal appears twice among the participants of the contest. *)
Definition uniqueParticipants (c : Contest.t) : Prop :=
  NoDup (Participant.user <$> Contest.participants c).

(** Every participant of the contest refers to a stored user. *)
Definition participantsKnown (us : list User.t) (c : Contest.t) : Prop :=
  ∀ p, p ∈ Contest.participants c → knows us (Participant.user p).

(** Whoever the notification counts as a reader is one of its targets. *)
Definition readersAreTargets (n : Notification.t) : Prop :=
  ∀ k, Notification.isReadByUser k n = true →
       ∃ u, u ∈ Notification.targetUsers n ∧ toString u = k.

(** The principal a call registers, if it is a registration. *)
Definition joinerOf (c : Call) : option ObjectId :=
  match c with
  | Claimed (RegisterForContest _ caller _) => Some (User._id caller)
  | _ => None
  end.

(** How one call may change the Contest collection, user deletion
    apart: not at all, by rewriting one contest with the same
    participants' users, by appending one participant who was not yet
    there, or by appending a contest without participants. *)
Inductive ContestsChange (joiner : option ObjectId)
    (cs cs' : list Contest.t) : Prop :=
  | contests_kept : cs' = cs → ContestsChange joiner cs cs'
  | contests_edited (c d : Contest.t) :
      findById (Contest._id d) cs = Some c →
      cs' = updateOne d cs →
      Participant.user <$> Contest.participants d
      = Participant.user <$> Contest.participants c →
      ContestsChange joiner cs cs'
  | contests_joined (c d : Contest.t) (p : Participant.t) :
      findById (Contest._id d) cs = Some c →
      cs' = updateOne d cs →
      Contest.participants d = Contest.participants c ++ [p] →
      joiner = Some (Participant.user p) →
      Participant.user p ∉ Participant.user <$> Contest.participants c →
      ContestsChange joiner cs cs'
  | contests_created (d : Contest.t) :
      cs' = cs ++ [d] → Contest.participants d = [] →
      ContestsChange joiner cs cs'.

(** ** Sample data used by the worked instances *)

(** A stand-in for the keyed hash: the key, a colon, the data. *)
Definition sampleHmac (key data : string) : string := key +:+ ":" +:+ data.

Definition alice : User.t :=
  User.mk 1 "Alice" "alice@sgsu.example" student true [].
Definition bob : User.t :=
  User.mk 2 "Bob" "bob@sgsu.example" student true [].
Definition root : User.t :=
  User.mk 9 "Root" "root@sgsu.example" admin true [].

Definition freeContest : Contest.t :=
  Contest.mk 20 "Quiz" 2000 3000 1000 0 None [] upcoming true.
Definition paidContest : Contest.t :=
  Contest.mk 21 "Hackathon" 2000 3000 1000 500 (Some 0)
    [Participant.mk 2 900 part_pending (Some 30%N)] upcoming true.

Definition bobPayment : Payment.t :=
  Payment.mk 30 2 500 purpose_contest (Some 21%N) (Some model_Contest)
    pay_pending None None None None.

Definition campus : DB :=
  mkDB [alice; bob; root] [] [freeContest; paidContest] [bobPayment] [] []
    100.

Definition notice : Notification.t :=
  Notification.mk 40 "Timetable" "Lab moved to room 4" 9 rcp_specific
    [1%N; 2%N] info (Some ∅) rel_general None None.

Definition noticeBoard : DB :=
  mkDB [alice; bob; root] [] [freeContest; paidContest] [bobPayment]
    [notice] [] 100.

Definition alicePayment : Payment.t :=
  Payment.mk 31 1 500 purpose_contest (Some 21%N) (Some model_Contest)
    pay_pending None None None None.

Definition rivalsContest : Contest.t :=
  Contest.mk 21 "Hackathon" 2000 3000 1000 500 None
    [Participant.mk 2 900 part_pending (Some 30%N);
     Participant.mk 1 950 part_pending (Some 31%N)] upcoming true.

Definition rivals : DB :=
  mkDB [alice; bob; root] [] [rivalsContest] [bobPayment; alicePayment] [] []
    100.

(** Alice presents a correctly signed capture of Bob's payment. *)
Definition aliceClaimsBobs : VerifyBody.t :=
  VerifyBody.mk (Some "pay_1") (Some "order_1")
    (Some "secret:order_1|pay_1") (Some 30%N).

(** An administrator posts a notice in mode "specific" with an empty
    target list. *)
Definition emptySpecific : NotificationBody.t :=
  NotificationBody.mk (Some "Exam") (Some "Hall B at nine")
    (Some "specific") (Some []) None None None.

(** The same notice with no [targetUsers] field at all. *)
Definition absentSpecific : NotificationBody.t :=
  NotificationBody.mk (Some "Exam") (Some "Hall B at nine")
    (Some "specific") None None None None.




(** A second correctly signed capture naming the same local payment. *)
Definition secondCapture : VerifyBody.t :=
  VerifyBody.mk (Some "pay_2") (Some "order_2")
    (Some "secret:order_2|pay_2") (Some 30%N).

(** A free contest with one slot and a contest whose capacity was set
    below zero. *)
Definition soloContest : Contest.t :=
  Contest.mk 22 "Chess final" 2000 3000 1000 0 (Some 1) [] upcoming true.
Definition cursedContest : Contest.t :=
  Contest.mk 23 "Relay" 2000 3000 1000 0 (Some (-1)) [] upcoming true.

Definition arena : DB :=
  mkDB [alice; bob; root] [] [soloContest; cursedContest] [] [] [] 100.


(** A provider that accepts every order. *)
Definition sampleProvider (paise : Z) (receipt : string)
    : option RazorpayOrder :=
  Some (mkOrder "order_77" paise "INR" receipt).

(** A broadcast to all students. *)
Definition termNotice : NotificationBody.t :=
  NotificationBody.mk (Some "Welcome") (Some "Term starts Monday")
    (Some "all") None None None None.

(** A stand-in for the locale's date format: the epoch milliseconds in
    decimal. *)
Definition sampleLocale (d : Z) : string := pretty d.

(** A stand-in for [Number] on strings: signed decimal integers. *)
Definition sampleNumber (s : string) : option Z :=
  Z.of_int <$> NilEmpty.int_of_string s.

(** A request for a quiz whose [maxParticipants] is the string of the
    digit zero. *)
Definition quizBody : ContestBody.t :=
  ContestBody.mk (Some "Spring quiz") (Some "Ten questions") (Some 2000)
    (Some 3000) (Some 1000) None (Some (json_string "0")) (Some "trivia").

(** Users whose stored documents pass the schema's validation, and a
    student whose email does not match the schema's pattern. *)
Definition carol : User.t :=
  User.mk 3 "Carol" "carol@sgsu.edu" student true [].
Definition dean : User.t :=
  User.mk 8 "Dean" "dean@sgsu.ac.in" admin true [].
Definition eve : User.t :=
  User.mk 4 "Eve" "eve.at.sgsu" student true [].

Definition faculty : DB := mkDB [carol; eve; dean] [] [] [] [] [] 100.

(** Every stored profile passes the validators of its other paths. *)
Definition sampleProfile (i : ObjectId) : bool := true.

(** A patch that only cancels, and the empty patch. *)
Definition cancelPatch : ContestPatch.t :=
  ContestPatch.mk None None None None None None (Some "cancelled") None.
Definition emptyPatch : ContestPatch.t :=
  ContestPatch.mk None None None None None None None None.

(** * Properties *)

(** ** Collections *)

Lemma toString_inj (i j : ObjectId) : toString i = toString j → i = j.
Proof. unfold toString. apply (inj pretty). Qed.

Section CollectionFacts.
Context {A : Type} `{Document A}.
Implicit Types (c : list A) (d : A) (i : ObjectId).

Lemma findById_Some i c d : findById i c = Some d → oid d = i ∧ d ∈ c.
Proof.
  induction c as [|x c IH]; simpl; [done|].
  case_bool_decide as Hx.
  - intros [= <-]. split; [done | constructor].
  - intros Hd. destruct (IH Hd) as [? ?]. split; [done | by constructor].
Qed.




Lemma findById_updateOne_eq c d x :
  findById (oid d) c = Some x → findById (oid d) (updateOne d c) = Some d.
Proof.
  induction c as [|y c IH]; simpl; [done|].
  case_bool_decide as Hy; simpl.
  - intros _. by rewrite bool_decide_true.
  - intros Hx. rewrite bool_decide_false by done. by apply IH.
Qed.

Lemma findById_updateOne_ne i c d :
  i ≠ oid d → findById i (updateOne d c) = findById i c.
Proof.
  intros Hi. induction c as [|y c IH]; simpl; [done|].
  case_bool_decide as Hy; simpl.
  - rewrite !bool_decide_false by congruence. done.
  - case_bool_decide; [done | apply IH].
Qed.

Lemma updateOne_updateOne c d1 d2 :
  oid d1 = oid d2 → updateOne d2 (updateOne d1 c) = updateOne d2 c.
Proof.
  intros Ho. induction c as [|y c IH]; simpl; [done|].
  case_bool_decide as Hy; simpl.
  - rewrite !bool_decide_true by congruence. done.
  - rewrite !bool_decide_false by congruence. by rewrite IH.
Qed.

Lemma elem_of_deleteMany (matches : A → bool) c d :
  d ∈ deleteMany matches c ↔ d ∈ c ∧ matches d = false.
Proof. unfold deleteMany. rewrite list_elem_of_filter. tauto. Qed.
End CollectionFacts.




Lemma findIndex_absent {A : Type} (f : A → bool) (l : list A) :
  (∀ x, x ∈ l → f x = false) → findIndex f l = None.
Proof.
  induction l as [|a l IH]; simpl; [done|].
  intros Hl. rewrite (Hl a) by (apply elem_of_cons; by left).
  rewrite IH; [done|]. intros x Hx. apply Hl. apply elem_of_cons. by right.
Qed.

(** ** Payment verification *)

Section VerifyPaymentFacts.
Variable hmacSha256Hex : string → string → string.
Variable razorpayKeySecret : string.

Local Abbreviation verify := (verifyPayment hmacSha256Hex razorpayKeySecret).
Local Abbreviation expected := (generatedSignature hmacSha256Hex razorpayKeySecret).

(** C1.  When the signature sent with the request is not the keyed hash of
    [orderId|paymentId] under the configured secret, [verifyPayment]
    answers 400 "Invalid payment signature" and hands back the database
    it was given: no payment, contest participant or notification is
    written and nothing is pushed, whatever the other fields of the
    request are. *)
Theorem verifyPayment_forged_signature
    (caller : User.t) (body : VerifyBody.t) (w : DB) :
  VerifyBody.razorpaySignature body ≠ Some (expected body) →
  verify caller body w = (Res 400 (Message "Invalid payment signature"), w).
Proof.
  intros Hsig. unfold verifyPayment.
  rewrite bool_decide_false by congruence. done.
Qed.

(** A request that carries the right signature passes the check and is
    decided by the payment lookup. *)
Lemma verifyPayment_unknown_payment
    (caller : User.t) (body : VerifyBody.t) (w : DB) :
  VerifyBody.razorpaySignature body = Some (expected body) →
  findByIdOpt (VerifyBody.paymentId body) (payments w) = None →
  verify caller body w = (Res 404 (Message "Payment not found"), w).
Proof.
  intros Hsig Hnone. unfold verifyPayment.
  rewrite bool_decide_true by congruence. simpl. by rewrite Hnone.
Qed.
End VerifyPaymentFacts.

Lemma verifyPayment_forged_signature_witness :
  verifyPayment sampleHmac "secret" alice
    (VerifyBody.mk (Some "pay_1") (Some "order_1") (Some "forged")
       (Some 30%N)) campus
  = (Res 400 (Message "Invalid payment signature"), campus).
Proof.
  apply (verifyPayment_forged_signature sampleHmac "secret").
  vm_compute. discriminate.
Defined.

(** ** Contest registration *)

(** C7.  Once the clock has passed a contest's [registrationDeadline],
    [registerForContest] answers 400 "Registration for this contest is
    closed" for every caller, status, capacity (bounded or not) and
    participant list, and hands back the database unchanged. *)
Theorem registerForContest_after_deadline
    (now : Z) (caller : User.t) (contestId : ObjectId) (w : DB)
    (contest : Contest.t) :
  findById contestId (contests w) = Some contest →
  Contest.registrationDeadline contest < now →
  registerForContest now caller contestId w
  = (Res 400 (Message "Registration for this contest is closed"), w).
Proof.
  intros Hc Hlate. unfold registerForContest. rewrite Hc.
  unfold Contest.isRegistrationOpen.
  rewrite (bool_decide_false (now ≤ _)) by lia. done.
Qed.

Lemma registerForContest_after_deadline_witness :
  registerForContest 1001 alice 20 campus
  = (Res 400 (Message "Registration for this contest is closed"), campus).
Proof.
  apply (registerForContest_after_deadline 1001 alice 20 campus freeContest).
  - reflexivity.
  - vm_compute. reflexivity.
Defined.

Lemma findById_with_participants
    (i : ObjectId) (cs : list Contest.t) (contest : Contest.t)
    (ps : list Participant.t) :
  findById i cs = Some contest →
  findById i (updateOne (Contest.with_participants ps contest) cs)
  = Some (Contest.with_participants ps contest).
Proof.
  intros Hc. destruct (findById_Some _ _ _ Hc) as [Hid _].
  rewrite <- Hid in Hc |- *.
  exact (findById_updateOne_eq cs (Contest.with_participants ps contest)
           contest Hc).
Qed.

(** The branches of [registerForContest] that refuse leave the database
    as it was; the accepting branch is the only one that answers 200. *)
Lemma registerForContest_accepted
    (now : Z) (caller : User.t) (contestId : ObjectId) (w w' : DB)
    (body : Body) :
  registerForContest now caller contestId w = (Res 200 body, w') →
  ∃ contest,
    findById contestId (contests w) = Some contest
    ∧ Contest.isRegistrationOpen now contest = true
    ∧ Contest.isFull contest = false
    ∧ some (isParticipant caller) (Contest.participants contest) = false.
Proof.
  unfold registerForContest.
  destruct (findById contestId (contests w)) as [contest|]; [|done].
  destruct (Contest.isRegistrationOpen now contest) eqn:Hopen; [|done].
  destruct (Contest.isFull contest) eqn:Hfull; [done|].
  destruct (some _ _) eqn:Hnew; [done|]. intros _. by exists contest.
Qed.

(** C3.  A registration that is accepted on a contest without fee leaves
    the Payment collection as it was and appends a participant whose
    [paymentStatus] is completed and whose [paymentId] is null; on a
    contest with a positive fee it appends exactly one Payment, pending,
    for this caller and this contest, and appends a participant whose
    [paymentStatus] is pending and whose [paymentId] is that payment's
    id. *)
Theorem registerForContest_payment_record
    (now : Z) (caller : User.t) (contestId : ObjectId) (w w' : DB)
    (body : Body) :
  registerForContest now caller contestId w = (Res 200 body, w') →
  ∃ contest contest',
    findById contestId (contests w) = Some contest
    ∧ findById contestId (contests w') = Some contest'
    ∧ (Contest.entryFee contest = 0 →
         payments w' = payments w
         ∧ Contest.participants contest'
           = Contest.participants contest
             ++ [Participant.mk (User._id caller) now part_completed None])
    ∧ (0 < Contest.entryFee contest →
         ∃ payment,
           payments w' = payments w ++ [payment]
           ∧ Payment.status payment = pay_pending
           ∧ Payment.user payment = User._id caller
           ∧ Payment.purpose payment = purpose_contest
           ∧ Payment.relatedTo payment = Some contestId
           ∧ Payment.relatedModel payment = Some model_Contest
           ∧ Payment.amount payment = Contest.entryFee contest
           ∧ Contest.participants contest'
             = Contest.participants contest
               ++ [Participant.mk (User._id caller) now part_pending
                     (Some (Payment._id payment))]).
Proof.
  intros Hreg.
  destruct (registerForContest_accepted _ _ _ _ _ _ Hreg)
    as (contest & Hc & Hopen & Hfull & Hnew).
  destruct (findById_Some _ _ _ Hc) as [Hid _].
  change (oid contest) with (Contest._id contest) in Hid.
  revert Hreg. unfold registerForContest.
  rewrite Hc, Hopen, Hfull, Hnew. simpl.
  case_bool_decide as Hfee; simpl; intros [= <- <-]; simpl;
    eexists contest, _;
    (split; [done|]);
    (split; [by apply findById_with_participants|]).
  - split; [lia|]. intros _. eexists. repeat split; simpl; by rewrite ?Hid.
  - split; [|lia]. intros _. done.
Qed.

Lemma registerForContest_payment_record_witness :
  ∃ payment,
    payments (registerForContest 500 alice 21 campus).2
    = payments campus ++ [payment]
    ∧ Payment.status payment = pay_pending
    ∧ Payment.user payment = User._id alice
    ∧ Payment.relatedTo payment = Some 21%N.
Proof.
  destruct (registerForContest_payment_record 500 alice 21 campus
              (registerForContest 500 alice 21 campus).2
              (Registered 21 true part_pending
                 (Some (100%N, 500, pay_pending))))
    as (contest & contest' & Hc & _ & _ & Hfee).
  - vm_compute. reflexivity.
  - vm_compute in Hc. injection Hc as <-.
    destruct Hfee as (payment & Hp & Hs & Hu & _ & Hr & _).
    + vm_compute. reflexivity.
    + exists payment. repeat split; assumption.
Defined.

(** C10.  [isFull] answers false when [maxParticipants] is null or 0, so
    a contest whose [maxParticipants] is 0 has no capacity limit: while
    registration is open, [registerForContest] never answers "This
    contest has reached maximum participants", and a caller who is not
    yet a participant is accepted and appended, however many
    participants the contest already has. *)
Theorem registerForContest_zero_capacity_unbounded
    (now : Z) (caller : User.t) (contestId : ObjectId) (w : DB)
    (contest : Contest.t) :
  findById contestId (contests w) = Some contest →
  Contest.maxParticipants contest = None
  ∨ Contest.maxParticipants contest = Some 0 →
  Contest.isRegistrationOpen now contest = true →
  Contest.isFull contest = false
  ∧ (registerForContest now caller contestId w).1
    ≠ Res 400 (Message "This contest has reached maximum participants")
  ∧ (some (isParticipant caller) (Contest.participants contest) = false →
     ∃ body contest',
       (registerForContest now caller contestId w).1 = Res 200 body
       ∧ findById contestId
           (contests (registerForContest now caller contestId w).2)
         = Some contest'
       ∧ length (Contest.participants contest')
         = S (length (Contest.participants contest))).
Proof.
  intros Hc Hmax Hopen.
  assert (Hfull : Contest.isFull contest = false).
  { unfold Contest.isFull. by destruct Hmax as [-> | ->]. }
  split; [done|].
  unfold registerForContest. rewrite Hc, Hopen, Hfull. simpl.
  destruct (some _ _) eqn:Hnew; simpl.
  - split; [discriminate | discriminate].
  - split.
    + by case_bool_decide.
    + intros _. case_bool_decide; simpl; eexists _, _;
        (split; [done|]);
        (split; [by apply findById_with_participants|]);
        simpl; rewrite length_app; simpl; lia.
Qed.

Lemma registerForContest_zero_capacity_unbounded_witness :
  Contest.isFull paidContest = false
  ∧ ∃ contest',
      findById 21 (contests (registerForContest 500 alice 21 campus).2)
      = Some contest'
      ∧ length (Contest.participants contest') = 2%nat.
Proof.
  destruct (registerForContest_zero_capacity_unbounded 500 alice 21 campus
              paidContest) as (Hfull & _ & Hacc).
  - reflexivity.
  - right. reflexivity.
  - vm_compute. reflexivity.
  - split; [exact Hfull|].
    destruct Hacc as (body & contest' & _ & Hc' & Hlen).
    + vm_compute. reflexivity.
    + exists contest'. split; [exact Hc' | exact Hlen].
Defined.

(** ** Read tracking *)

Lemma setRead_setRead (userId : string) (n : Notification.t) :
  Notification.setRead userId (Notification.setRead userId n)
  = Notification.setRead userId n.
Proof.
  unfold Notification.setRead, Notification.with_isRead. simpl.
  by rewrite insert_insert_eq.
Qed.

Lemma isReadByUser_setRead (userId : string) (n : Notification.t) :
  Notification.isReadByUser userId (Notification.setRead userId n) = true.
Proof.
  unfold Notification.isReadByUser, Notification.setRead. simpl.
  by rewrite lookup_insert_eq.
Qed.

Lemma some_target (caller : User.t) (targetUsers : list ObjectId) :
  User._id caller ∈ targetUsers →
  some (λ userId, bool_decide (toString userId = User.id caller)) targetUsers
  = true.
Proof.
  intros Hin. unfold some. apply existsb_exists.
  exists (User._id caller). split; [by apply list_elem_of_In|].
  by apply bool_decide_eq_true.
Qed.

(** The accepting branch of [markAsRead]. *)
Lemma markAsRead_target
    (caller : User.t) (notificationId : ObjectId) (w : DB)
    (n : Notification.t) :
  findById notificationId (notifications w) = Some n →
  User._id caller ∈ Notification.targetUsers n →
  markAsRead caller notificationId w
  = (Res 200 (Message "Notification marked as read"),
     with_notifications
       (updateOne (Notification.setRead (User.id caller) n)
          (notifications w)) w).
Proof.
  intros Hn Hin. unfold markAsRead, Notification_markAsRead.
  by rewrite Hn, some_target.
Qed.

(** C8.  For a notification that exists and a caller in its target list,
    [markAsRead] succeeds and leaves the caller's read-map entry true;
    called again on the resulting database it succeeds again, the entry
    is still true, and the database is the one the first call left. *)
Theorem markAsRead_idempotent
    (caller : User.t) (notificationId : ObjectId) (w : DB)
    (n : Notification.t) :
  findById notificationId (notifications w) = Some n →
  User._id caller ∈ Notification.targetUsers n →
  ∃ w1 n1,
    markAsRead caller notificationId w
    = (Res 200 (Message "Notification marked as read"), w1)
    ∧ findById notificationId (notifications w1) = Some n1
    ∧ Notification.isReadByUser (User.id caller) n1 = true
    ∧ markAsRead caller notificationId w1
      = (Res 200 (Message "Notification marked as read"), w1).
Proof.
  intros Hn Hin.
  destruct (findById_Some _ _ _ Hn) as [Hid _].
  set (n1 := Notification.setRead (User.id caller) n).
  assert (Hn1 : findById notificationId
                  (updateOne n1 (notifications w)) = Some n1).
  { rewrite <- Hid in Hn |- *.
    exact (findById_updateOne_eq (notifications w) n1 n Hn). }
  eexists _, n1. split; [by apply markAsRead_target|].
  split; [exact Hn1|]. split; [apply isReadByUser_setRead|].
  rewrite (markAsRead_target caller notificationId _ n1); [|exact Hn1|done].
  simpl. f_equal. unfold with_notifications. simpl. f_equal.
  subst n1. rewrite setRead_setRead. by apply updateOne_updateOne.
Qed.

Lemma markAsRead_idempotent_witness :
  ∃ w1 n1,
    markAsRead alice 40 noticeBoard
    = (Res 200 (Message "Notification marked as read"), w1)
    ∧ findById 40 (notifications w1) = Some n1
    ∧ Notification.isReadByUser (User.id alice) n1 = true
    ∧ markAsRead alice 40 w1
      = (Res 200 (Message "Notification marked as read"), w1).
Proof.
  apply (markAsRead_idempotent alice 40 noticeBoard notice).
  - reflexivity.
  - simpl. constructor.
Defined.

(** ** Who is settled by a verified payment *)

Lemma settleParticipant_payments
    (caller : User.t) (payment : Payment.t) (w : DB) :
  payments (settleParticipant caller payment w) = payments w.
Proof.
  unfold settleParticipant.
  destruct (_ && _); [|done].
  destruct (findByIdOpt _ _); [|done].
  by destruct (findIndex _ _).
Qed.


Lemma isParticipant_true (caller : User.t) (p : Participant.t) :
  isParticipant caller p = true ↔ Participant.user p = User._id caller.
Proof.
  unfold isParticipant, User.id. rewrite bool_decide_eq_true.
  split; [apply toString_inj | by intros ->].
Qed.

Section VerifyPaymentCaller.
Variable hmacSha256Hex : string → string → string.
Variable razorpayKeySecret : string.

Local Abbreviation verify := (verifyPayment hmacSha256Hex razorpayKeySecret).
Local Abbreviation expected :=
  (generatedSignature hmacSha256Hex razorpayKeySecret).

End VerifyPaymentCaller.


(** In that run Alice's entry is settled with Bob's payment id and Bob's
    entry stays pending. *)
Example verifyPayment_rivals_participants :
  Contest.participants
    <$> findById 21
          (contests
             (verifyPayment sampleHmac "secret" alice aliceClaimsBobs
                rivals).2)
  = Some [Participant.mk 2 900 part_pending (Some 30%N);
          Participant.mk 1 950 part_completed (Some 30%N)].
Proof. vm_compute. reflexivity. Qed.

(** ** Notification cleanup on user deletion *)

Lemma mentions_false (u : ObjectId) (n : Notification.t) :
  mentions u n = false
  ↔ Notification.sender n ≠ u ∧ u ∉ Notification.targetUsers n.
Proof.
  unfold mentions. rewrite orb_false_iff, !bool_decide_eq_false. tauto.
Qed.

(** C6 (as the code has it).  Deleting a user other than the caller
    deletes every Notification whose sender is that user or whose target
    list contains that user, whether or not it has other targets; the
    records that remain are exactly the ones that did not mention the
    user, unchanged and in their order.  No target list is edited. *)
Theorem deleteUser_purges_notifications
    (caller : User.t) (userId : ObjectId) (w : DB) (user : User.t) :
  findById userId (users w) = Some user →
  userId ≠ User._id caller →
  ∃ w',
    deleteUser caller userId w
    = (Res 200 (Message "User and all associated data deleted"), w')
    ∧ notifications w' = deleteMany (mentions userId) (notifications w)
    ∧ ∀ n,
        n ∈ notifications w'
        ↔ n ∈ notifications w
          ∧ Notification.sender n ≠ userId
          ∧ userId ∉ Notification.targetUsers n.
Proof.
  intros Hu Hne. destruct (findById_Some _ _ _ Hu) as [Hid _].
  change (oid user) with (User._id user) in Hid.
  eexists. split.
  { unfold deleteUser. rewrite Hu.
    rewrite bool_decide_false; [reflexivity|].
    unfold User.id. intros Heq%toString_inj. congruence. }
  simpl. rewrite Hid. split; [done|].
  intros n. by rewrite elem_of_deleteMany, mentions_false.
Qed.

Lemma deleteUser_purges_notifications_witness :
  ∃ w',
    deleteUser root 1 noticeBoard
    = (Res 200 (Message "User and all associated data deleted"), w')
    ∧ notifications w' = deleteMany (mentions 1) (notifications noticeBoard).
Proof.
  destruct (deleteUser_purges_notifications root 1 noticeBoard alice)
    as (w' & Hd & Hn & _).
  - reflexivity.
  - vm_compute. discriminate.
  - exists w'. split; assumption.
Defined.

(** C6, the run that refutes it.  The timetable notice was sent by the
    administrator to Alice and Bob; deleting Alice deletes the notice
    although Bob is still a target. *)
Lemma deleteUser_drops_shared_notification :
  findById 40 (notifications noticeBoard) = Some notice
  ∧ Notification.sender notice = User._id root
  ∧ Notification.targetUsers notice = [User._id alice; User._id bob]
  ∧ (deleteUser root 1 noticeBoard).1
    = Res 200 (Message "User and all associated data deleted")
  ∧ notifications (deleteUser root 1 noticeBoard).2 = [].
Proof. vm_compute. repeat split; reflexivity. Qed.

(** ** Creating notifications *)

Lemma newNotification_recipients
    (i : ObjectId) (caller : User.t) (body : NotificationBody.t) (w : DB)
    (n : Notification.t) :
  newNotification i caller body w = Some n →
  (Notification.recipients n, Notification.targetUsers n)
  = resolveRecipients body w.
Proof.
  unfold newNotification.
  destruct (resolveRecipients body w) as [recipients targetUsers].
  destruct (resolveRelation body) as [relatedId notificationType].
  destruct (_ && _); [|done].
  destruct (parseUrgencyLevel _); [|done].
  destruct (parseRelatedTo _); [|done].
  by intros [= <-].
Qed.

(** What a run of the controller that passed request validation does. *)
Lemma createNotification_validated
    (caller : User.t) (body : NotificationBody.t) (w : DB) :
  createNotification [] caller body w = (Next "ValidationError", w)
  ∨ ∃ n w',
      createNotification [] caller body w = (Res 201 (NotificationSent n), w')
      ∧ notifications w' = notifications w ++ [n]
      ∧ (Notification.recipients n, Notification.targetUsers n)
        = resolveRecipients body w.
Proof.
  unfold createNotification. simpl.
  destruct (newNotification _ _ _ _) as [n|] eqn:Hn; [right | by left].
  eexists n, _. split; [reflexivity|]. split; [done|].
  by eapply newNotification_recipients.
Qed.

Lemma isSpecific_without_targets (body : NotificationBody.t) :
  NotificationBody.targetUsers body = None
  ∨ NotificationBody.targetUsers body = Some [] →
  isSpecific body = false.
Proof.
  unfold isSpecific. intros [-> | ->]; simpl; apply andb_false_r.
Qed.

(** Through the route, a request whose target list is the empty array
    and which the validation chain lets through is never refused for its
    targets: unless schema validation rejects the record, it is persisted
    in mode "all" with the ids of all current students as targets. *)
Lemma postNotification_empty_targets
    (caller : User.t) (body : NotificationBody.t) (w : DB) :
  User.role caller = admin →
  notificationRouteErrors body = [] →
  NotificationBody.targetUsers body = Some [] →
  postNotification caller body w = (Next "ValidationError", w)
  ∨ ∃ n w',
      postNotification caller body w = (Res 201 (NotificationSent n), w')
      ∧ notifications w' = notifications w ++ [n]
      ∧ Notification.recipients n = rcp_all
      ∧ Notification.targetUsers n = studentIds (users w).
Proof.
  intros Hadmin Herrors Hempty. unfold postNotification.
  rewrite Hadmin, Herrors. simpl.
  destruct (createNotification_validated caller body w)
    as [Hfail | (n & w' & Hrun & Hns & Hrcp)]; [by left | right].
  exists n, w'. split; [done|]. split; [done|].
  unfold resolveRecipients in Hrcp.
  rewrite isSpecific_without_targets in Hrcp by (by right).
  by injection Hrcp as -> ->.
Qed.

(** C4 (the failing run).  An administrator posts, through the route
    [POST /api/notifications], a notice with recipients mode "specific"
    and the empty array as [targetUsers].  The route's validation chain,
    which refuses the same notice with 400 when the list is absent,
    reports nothing for the empty array ([isArray] holds of it and
    [not().isEmpty()] has no element to examine); the controller then
    takes its fallback branch, answers 201 and persists a record in mode
    "all" addressed to both students. *)
Theorem postNotification_specific_empty_targets_broadcast :
  User.role root = admin
  ∧ NotificationBody.recipients emptySpecific = Some "specific"
  ∧ NotificationBody.targetUsers emptySpecific = Some []
  ∧ notificationRouteErrors emptySpecific = []
  ∧ (∃ n,
       (postNotification root emptySpecific campus).1
       = Res 201 (NotificationSent n)
       ∧ notifications (postNotification root emptySpecific campus).2
         = notifications campus ++ [n]
       ∧ Notification.recipients n = rcp_all
       ∧ Notification.targetUsers n = [User._id alice; User._id bob])
  ∧ postNotification root absentSpecific campus
    = (Res 400 (Errors ["targetUsers"; "targetUsers"]), campus).
Proof.
  split; [reflexivity|]. split; [reflexivity|]. split; [reflexivity|].
  split; [reflexivity|]. split; [|reflexivity].
  eexists. vm_compute. repeat split; reflexivity.
Qed.

(** Through the route, an absent target list in mode "specific" is
    reported by the validation chain and answered 400. *)
Lemma postNotification_specific_absent_targets
    (caller : User.t) (body : NotificationBody.t) (w : DB) :
  User.role caller = admin →
  NotificationBody.recipients body = Some "specific" →
  NotificationBody.targetUsers body = None →
  postNotification caller body w
  = (Res 400 (Errors (notificationRouteErrors body)), w).
Proof.
  intros Hadmin Hrcp Htargets. unfold postNotification, createNotification.
  rewrite Hadmin. simpl. rewrite bool_decide_false; [done|].
  unfold notificationRouteErrors. rewrite Hrcp, Htargets. simpl.
  intros Hnil. apply (f_equal length) in Hnil.
  rewrite !length_app in Hnil. simpl in Hnil. lia.
Qed.

(** When the record that [createNotification] persists has targets. *)
Lemma createNotification_targets_empty
    (errors : list string) (caller : User.t) (body : NotificationBody.t)
    (w w' : DB) (n : Notification.t) :
  createNotification errors caller body w
  = (Res 201 (NotificationSent n), w') →
  Notification.targetUsers n = []
  ↔ isSpecific body = false ∧ studentIds (users w) = [].
Proof.
  unfold createNotification.
  destruct (negb _); [done|]. simpl.
  destruct (newNotification _ _ _ _) as [n0|] eqn:Hn; [|done].
  intros [= -> _]. apply newNotification_recipients in Hn.
  unfold resolveRecipients in Hn.
  destruct (isSpecific body) eqn:Hs; injection Hn as _ ->.
  - split; [|by intros [? _]]. intros Hnil.
    unfold isSpecific in Hs. apply andb_prop in Hs as [_ Hlen].
    destruct (NotificationBody.targetUsers body) as [l|]; [|done].
    simpl in Hnil. subst l. done.
  - tauto.
Qed.

(** C5 (the failing run).  With no student in the user store, a
    notification in mode "all" passes the route's validation, is answered
    201 and is persisted with an empty [targetUsers] list. *)
Theorem createNotification_no_students_empty_targets :
  let staffOnly := mkDB [root] [] [] [] [] [] 100 in
  let welcome :=
    NotificationBody.mk (Some "Welcome") (Some "Term starts Monday")
      (Some "all") None None None None in
  notificationRouteErrors welcome = []
  ∧ ∃ n,
      (postNotification root welcome staffOnly).1
      = Res 201 (NotificationSent n)
      ∧ notifications (postNotification root welcome staffOnly).2 = [n]
      ∧ Notification.targetUsers n = [].
Proof.
  split; [reflexivity|].
  eexists. vm_compute. repeat split; reflexivity.
Qed.

(** ** Payment status across the operations *)

Lemma createOrder_payments
    (provider : Z → string → option RazorpayOrder) (now : Z)
    (caller : User.t) (body : OrderBody.t) (w : DB) :
  PaymentsChange (payments w)
    (payments (createOrder provider now caller body w).2).
Proof.
  unfold createOrder.
  destruct (OrderBody.amount body) as [amount|]; [|by constructor 1].
  case_bool_decide; [by constructor 1|].
  destruct (negb _); [by constructor 1|].
  destruct (_ && _); [by constructor 1|].
  destruct (provider _ _) as [order|]; [|by constructor 1].
  destruct (parsePurpose _) as [purpose|]; [|by constructor 1].
  destruct (parseRelatedModel _) as [relatedModel|]; [|by constructor 1].
  by econstructor 2.
Qed.

Lemma registerForContest_payments
    (now : Z) (caller : User.t) (contestId : ObjectId) (w : DB) :
  PaymentsChange (payments w)
    (payments (registerForContest now caller contestId w).2).
Proof.
  unfold registerForContest.
  destruct (findById contestId (contests w)) as [contest|];
    [|by constructor 1].
  destruct (negb _); [by constructor 1|].
  destruct (Contest.isFull contest); [by constructor 1|].
  destruct (some _ _); [by constructor 1|].
  case_bool_decide; simpl; [by econstructor 2 | by constructor 1].
Qed.

Lemma verifyPayment_payments
    (hmacSha256Hex : string → string → string) (razorpayKeySecret : string)
    (caller : User.t) (body : VerifyBody.t) (w : DB) :
  PaymentsChange (payments w)
    (payments
       (verifyPayment hmacSha256Hex razorpayKeySecret caller body w).2).
Proof.
  unfold verifyPayment.
  destruct (negb _); [by constructor 1|].
  destruct (VerifyBody.paymentId body) as [pid|]; [|by constructor 1].
  simpl. destruct (findById pid (payments w)) as [payment|] eqn:Hp;
    [|by constructor 1].
  simpl. rewrite settleParticipant_payments. simpl.
  destruct (findById_Some _ _ _ Hp) as [Hid _].
  change (oid payment) with (Payment._id payment) in Hid.
  econstructor 3; [|reflexivity]. by rewrite Hid.
Qed.

Lemma createNotification_payments
    (errors : list string) (caller : User.t) (body : NotificationBody.t)
    (w : DB) :
  payments (createNotification errors caller body w).2 = payments w.
Proof.
  unfold createNotification.
  destruct (negb _); [done|]. simpl. by destruct (newNotification _ _ _ _).
Qed.

Lemma markAsRead_payments
    (caller : User.t) (notificationId : ObjectId) (w : DB) :
  payments (markAsRead caller notificationId w).2 = payments w.
Proof.
  unfold markAsRead.
  destruct (findById _ _); [|done]. by destruct (negb _).
Qed.

Lemma deleteUser_payments (caller : User.t) (userId : ObjectId) (w : DB) :
  payments (deleteUser caller userId w).2 = payments w.
Proof.
  unfold deleteUser.
  destruct (findById _ _); [|done]. by case_bool_decide.
Qed.

Lemma step_payments
    (hmacSha256Hex : string → string → string) (razorpayKeySecret : string)
    (op : Op) (w : DB) :
  PaymentsChange (payments w)
    (payments (step hmacSha256Hex razorpayKeySecret op w).2).
Proof.
  destruct op; simpl.
  - apply createOrder_payments.
  - apply verifyPayment_payments.
  - apply registerForContest_payments.
  - constructor 1. apply createNotification_payments.
  - constructor 1. apply markAsRead_payments.
  - constructor 1. apply deleteUser_payments.
Qed.




(** Verifying a payment that is already completed runs the capture
    again: the status stays completed, the stored gateway payment id is
    overwritten and a second notification is created. *)
Example verifyPayment_recapture_completed :
  let w1 := (verifyPayment sampleHmac "secret" bob aliceClaimsBobs campus).2 in
  let w2 := (verifyPayment sampleHmac "secret" bob secondCapture w1).2 in
  (λ p, (Payment.status p, Payment.razorpayPaymentId p))
    <$> findById 30 (payments w1)
  = Some (pay_completed, Some "pay_1")
  ∧ (λ p, (Payment.status p, Payment.razorpayPaymentId p))
      <$> findById 30 (payments w2)
    = Some (pay_completed, Some "pay_2")
  ∧ length (notifications w1) = 1%nat
  ∧ length (notifications w2) = 2%nat.
Proof. vm_compute. repeat split; reflexivity. Qed.

(** * Further properties *)

(** ** Read tracking, continued *)

Lemma some_not_target (caller : User.t) (targetUsers : list ObjectId) :
  User._id caller ∉ targetUsers →
  some (λ userId, bool_decide (toString userId = User.id caller)) targetUsers
  = false.
Proof.
  intros Hnot. unfold some.
  destruct (existsb _ _) eqn:Hex; [|done].
  apply existsb_exists in Hex as (u & Hin & Hu).
  apply bool_decide_eq_true in Hu. apply toString_inj in Hu. subst u.
  by apply list_elem_of_In in Hin.
Qed.

(** X1.  A caller who is not in the target list of an existing
    notification is answered 403 and nothing is written: a read flag can
    only be set by a target. *)
Theorem markAsRead_forbidden
    (caller : User.t) (notificationId : ObjectId) (w : DB)
    (n : Notification.t) :
  findById notificationId (notifications w) = Some n →
  User._id caller ∉ Notification.targetUsers n →
  markAsRead caller notificationId w
  = (Res 403 (Message "Not authorized to access this notification"), w).
Proof.
  intros Hn Hnot. unfold markAsRead. by rewrite Hn, some_not_target.
Qed.

Lemma markAsRead_forbidden_witness :
  markAsRead root 40 noticeBoard
  = (Res 403 (Message "Not authorized to access this notification"),
     noticeBoard).
Proof.
  apply (markAsRead_forbidden root 40 noticeBoard notice).
  - reflexivity.
  - vm_compute. intros H. repeat (apply elem_of_cons in H as [H|H];
      [discriminate H|]). by apply elem_of_nil in H.
Defined.

Lemma isReadByUser_setRead_other (k k' : string) (n : Notification.t) :
  k ≠ k' →
  Notification.isReadByUser k' (Notification.setRead k n)
  = Notification.isReadByUser k' n.
Proof.
  intros Hne. unfold Notification.isReadByUser, Notification.setRead. simpl.
  rewrite lookup_insert_ne by done.
  destruct (Notification.isRead n); simpl; [done|]. by rewrite lookup_empty.
Qed.

(** X2.  A successful [markAsRead] touches one entry of one record: every
    other notification is as before, and in the marked notification the
    target list and the read state of every other user are as before. *)
Theorem markAsRead_isolated
    (caller : User.t) (notificationId : ObjectId) (w : DB)
    (n : Notification.t) :
  findById notificationId (notifications w) = Some n →
  User._id caller ∈ Notification.targetUsers n →
  (∀ j, j ≠ notificationId →
     findById j (notifications (markAsRead caller notificationId w).2)
     = findById j (notifications w))
  ∧ ∃ n',
      findById notificationId
        (notifications (markAsRead caller notificationId w).2) = Some n'
      ∧ Notification.targetUsers n' = Notification.targetUsers n
      ∧ ∀ u : User.t,
          User._id u ≠ User._id caller →
          Notification.isReadByUser (User.id u) n'
          = Notification.isReadByUser (User.id u) n.
Proof.
  intros Hn Hin. rewrite (markAsRead_target caller notificationId w n) by done.
  simpl. destruct (findById_Some _ _ _ Hn) as [Hid _].
  split.
  - intros j Hj. apply findById_updateOne_ne.
    change (oid (Notification.setRead (User.id caller) n))
      with (oid n). congruence.
  - exists (Notification.setRead (User.id caller) n). split.
    + rewrite <- Hid in Hn |- *.
      exact (findById_updateOne_eq (notifications w)
               (Notification.setRead (User.id caller) n) n Hn).
    + split; [done|]. intros u Hu.
      apply isReadByUser_setRead_other. unfold User.id.
      intros Heq%toString_inj. congruence.
Qed.

Lemma markAsRead_isolated_witness :
  ∃ n',
    findById 40 (notifications (markAsRead alice 40 noticeBoard).2) = Some n'
    ∧ Notification.targetUsers n' = Notification.targetUsers notice
    ∧ Notification.isReadByUser (User.id bob) n' = false.
Proof.
  destruct (markAsRead_isolated alice 40 noticeBoard notice)
    as (_ & n' & Hn' & Ht & Hr).
  - reflexivity.
  - simpl. constructor.
  - exists n'. split; [exact Hn'|]. split; [exact Ht|].
    rewrite (Hr bob); [reflexivity|]. vm_compute. discriminate.
Defined.

Lemma countDocuments_cons {A : Type} (query : A → bool) (d : A) (c : list A) :
  countDocuments query (d :: c)
  = ((if query d then 1 else 0) + countDocuments query c)%nat.
Proof.
  unfold countDocuments. rewrite filter_cons. case_decide as Hq.
  - by rewrite Hq.
  - by destruct (query d).
Qed.

Lemma countDocuments_updateOne {A : Type} `{Document A}
    (query : A → bool) (d x : A) (c : list A) :
  findById (oid d) c = Some x →
  (countDocuments query (updateOne d c) + (if query x then 1 else 0)
   = countDocuments query c + (if query d then 1 else 0))%nat.
Proof.
  induction c as [|y c IH]; simpl; [done|].
  case_bool_decide as Hy.
  - intros [= ->]. rewrite !countDocuments_cons. lia.
  - intros Hx. rewrite !countDocuments_cons. specialize (IH Hx). lia.
Qed.

(** The unread filter of the listing query and [isReadByUser] agree. *)
Lemma myNotificationsQuery_unread (caller : User.t) (n : Notification.t) :
  myNotificationsQuery caller (Some "true") n
  = bool_decide (User._id caller ∈ Notification.targetUsers n)
    && negb (Notification.isReadByUser (User.id caller) n).
Proof.
  unfold myNotificationsQuery, Notification.isReadByUser. simpl.
  f_equal. destruct (Notification.isRead n) as [m|]; simpl; [|done].
  by destruct (m !! User.id caller) as [[]|].
Qed.

(** X3.  The [total] that [getMyNotifications] reports for the caller:
    a successful [markAsRead] lowers the unread total by one when the
    notification was unread for the caller and leaves it when it was
    already read; the total without the unread filter does not change. *)
Theorem markAsRead_unread_total
    (caller : User.t) (notificationId : ObjectId) (w : DB)
    (n : Notification.t) :
  findById notificationId (notifications w) = Some n →
  User._id caller ∈ Notification.targetUsers n →
  (myNotificationsTotal caller (Some "true")
     (markAsRead caller notificationId w).2
   + (if Notification.isReadByUser (User.id caller) n then 0 else 1)
   = myNotificationsTotal caller (Some "true") w)%nat
  ∧ myNotificationsTotal caller None (markAsRead caller notificationId w).2
    = myNotificationsTotal caller None w.
Proof.
  intros Hn Hin. rewrite (markAsRead_target caller notificationId w n) by done.
  simpl. destruct (findById_Some _ _ _ Hn) as [Hid _].
  set (n1 := Notification.setRead (User.id caller) n).
  assert (Hn1 : findById (oid n1) (notifications w) = Some n).
  { change (oid n1) with (oid n). by rewrite Hid. }
  unfold myNotificationsTotal. simpl. split.
  - pose proof (countDocuments_updateOne
                  (myNotificationsQuery caller (Some "true")) n1 n
                  (notifications w) Hn1) as Hc.
    rewrite !myNotificationsQuery_unread in Hc.
    subst n1. rewrite isReadByUser_setRead in Hc. simpl in Hc.
    rewrite bool_decide_true in Hc by done. simpl in Hc.
    destruct (Notification.isReadByUser _ n); simpl in Hc; lia.
  - pose proof (countDocuments_updateOne
                  (myNotificationsQuery caller None) n1 n
                  (notifications w) Hn1) as Hc.
    assert (Hq : ∀ m, Notification.targetUsers m = Notification.targetUsers n →
                      myNotificationsQuery caller None m = true).
    { intros m Hm. unfold myNotificationsQuery. rewrite Hm. simpl.
      rewrite bool_decide_true by done. done. }
    rewrite !Hq in Hc by done. lia.
Qed.

Lemma markAsRead_unread_total_witness :
  myNotificationsTotal alice (Some "true") noticeBoard = 1%nat
  ∧ myNotificationsTotal alice (Some "true") (markAsRead alice 40 noticeBoard).2
    = 0%nat.
Proof.
  destruct (markAsRead_unread_total alice 40 noticeBoard notice) as [Hu _].
  - reflexivity.
  - simpl. constructor.
  - assert (Ht : myNotificationsTotal alice (Some "true") noticeBoard = 1%nat)
      by (vm_compute; reflexivity).
    split; [exact Ht|]. rewrite Ht in Hu.
    assert (Hr : Notification.isReadByUser (User.id alice) notice = false)
      by reflexivity.
    rewrite Hr in Hu. lia.
Defined.

(** ** Registration, continued *)

(** The database an accepted registration leaves. *)
Lemma registerForContest_accepted_state
    (now : Z) (caller : User.t) (contestId : ObjectId) (w w' : DB)
    (body : Body) :
  registerForContest now caller contestId w = (Res 200 body, w') →
  ∃ contest participant,
    findById contestId (contests w) = Some contest
    ∧ Contest.isFull contest = false
    ∧ some (isParticipant caller) (Contest.participants contest) = false
    ∧ Participant.user participant = User._id caller
    ∧ contests w'
      = updateOne
          (Contest.with_participants
             (Contest.participants contest ++ [participant]) contest)
          (contests w)
    ∧ users w' = pushUserContest (User._id caller) contestId (users w)
    ∧ notifications w' = notifications w
    ∧ blogs w' = blogs w
    ∧ emitted w' = emitted w.
Proof.
  intros Hreg.
  destruct (registerForContest_accepted _ _ _ _ _ _ Hreg)
    as (contest & Hc & Hopen & Hfull & Hnew).
  destruct (findById_Some _ _ _ Hc) as [Hid _].
  change (oid contest) with (Contest._id contest) in Hid.
  revert Hreg. unfold registerForContest.
  rewrite Hc, Hopen, Hfull, Hnew. simpl.
  case_bool_decide; simpl; intros [= <- <-]; simpl;
    eexists contest, _; rewrite Hid; repeat split; done.
Qed.

Lemma isParticipant_last (caller : User.t) (ps : list Participant.t)
    (p : Participant.t) :
  Participant.user p = User._id caller →
  some (isParticipant caller) (ps ++ [p]) = true.
Proof.
  intros Hp. unfold some. rewrite existsb_app. simpl.
  rewrite (proj2 (isParticipant_true caller p) Hp).
  by rewrite orb_true_r.
Qed.

(** X4.  Registration is once per principal: after an accepted
    registration every further attempt by the same caller on that
    contest, at any time, is answered 400 and writes nothing. *)
Theorem registerForContest_twice
    (now now' : Z) (caller : User.t) (contestId : ObjectId) (w w' : DB)
    (body : Body) :
  registerForContest now caller contestId w = (Res 200 body, w') →
  ∃ m, registerForContest now' caller contestId w' = (Res 400 (Message m), w').
Proof.
  intros Hreg.
  destruct (registerForContest_accepted_state _ _ _ _ _ _ Hreg)
    as (contest & p & Hc & _ & _ & Hp & Hcs & _).
  unfold registerForContest. rewrite Hcs.
  rewrite (findById_with_participants contestId (contests w) contest _ Hc).
  destruct (negb _); [by eexists|].
  destruct (Contest.isFull _); [by eexists|].
  simpl. rewrite isParticipant_last by done. by eexists.
Qed.

Lemma registerForContest_twice_witness :
  ∃ m,
    registerForContest 600 alice 20 (registerForContest 500 alice 20 campus).2
    = (Res 400 (Message m), (registerForContest 500 alice 20 campus).2).
Proof.
  apply (registerForContest_twice 500 600 alice 20 campus _
           (Registered 20 false part_completed None)).
  vm_compute. reflexivity.
Defined.

(** X5.  The last slot: when an accepted registration brings a bounded
    contest to its [maxParticipants], every later registration on it, by
    anyone at any time, is refused as closed or as full, and writes
    nothing. *)
Theorem registerForContest_last_slot
    (now now' : Z) (caller caller' : User.t) (contestId : ObjectId)
    (w w' : DB) (body : Body) (contest : Contest.t) :
  registerForContest now caller contestId w = (Res 200 body, w') →
  findById contestId (contests w) = Some contest →
  Contest.maxParticipants contest
  = Some (Z.of_nat (length (Contest.participants contest)) + 1) →
  registerForContest now' caller' contestId w'
  = (Res 400 (Message "Registration for this contest is closed"), w')
  ∨ registerForContest now' caller' contestId w'
    = (Res 400 (Message "This contest has reached maximum participants"),
       w').
Proof.
  intros Hreg Hc Hmax.
  destruct (registerForContest_accepted_state _ _ _ _ _ _ Hreg)
    as (contest0 & p & Hc0 & _ & _ & Hp & Hcs & _).
  rewrite Hc in Hc0. injection Hc0 as <-.
  unfold registerForContest. rewrite Hcs.
  rewrite (findById_with_participants contestId (contests w) contest _ Hc).
  destruct (negb _); [by left | right].
  unfold Contest.isFull. simpl. rewrite Hmax.
  rewrite bool_decide_false by lia.
  rewrite bool_decide_true; [done|]. rewrite length_app. simpl. lia.
Qed.

(** X6.  A negative [maxParticipants] is not treated as unbounded: while
    registration is open every attempt is refused as full. *)
Theorem registerForContest_negative_capacity
    (now : Z) (caller : User.t) (contestId : ObjectId) (w : DB)
    (contest : Contest.t) (m : Z) :
  findById contestId (contests w) = Some contest →
  Contest.maxParticipants contest = Some m →
  m < 0 →
  Contest.isRegistrationOpen now contest = true →
  registerForContest now caller contestId w
  = (Res 400 (Message "This contest has reached maximum participants"), w).
Proof.
  intros Hc Hmax Hneg Hopen. unfold registerForContest.
  rewrite Hc, Hopen. simpl. unfold Contest.isFull. rewrite Hmax.
  rewrite bool_decide_false by lia. rewrite bool_decide_true by lia. done.
Qed.

(** X7.  An accepted registration appends the contest id to the stored
    caller's [contests] list and leaves every other user document as it
    was. *)
Theorem registerForContest_user_contests
    (now : Z) (caller : User.t) (contestId : ObjectId) (w w' : DB)
    (body : Body) (u : User.t) :
  registerForContest now caller contestId w = (Res 200 body, w') →
  findById (User._id caller) (users w) = Some u →
  findById (User._id caller) (users w') = Some (User.push_contest contestId u)
  ∧ ∀ j, j ≠ User._id caller → findById j (users w') = findById j (users w).
Proof.
  intros Hreg Hu.
  destruct (registerForContest_accepted_state _ _ _ _ _ _ Hreg)
    as (contest & p & _ & _ & _ & _ & _ & Hus & _).
  rewrite Hus. unfold pushUserContest. rewrite Hu.
  destruct (findById_Some _ _ _ Hu) as [Hid _].
  split.
  - rewrite <- Hid in Hu |- *.
    exact (findById_updateOne_eq (users w) (User.push_contest contestId u)
             u Hu).
  - intros j Hj. apply findById_updateOne_ne.
    change (oid (User.push_contest contestId u)) with (oid u). congruence.
Qed.

Lemma registerForContest_user_contests_witness :
  User.contests
    <$> findById 1 (users (registerForContest 500 alice 20 campus).2)
  = Some [20%N].
Proof.
  destruct (registerForContest_user_contests 500 alice 20 campus
              (registerForContest 500 alice 20 campus).2
              (Registered 20 false part_completed None) alice) as [Hu _].
  - vm_compute. reflexivity.
  - reflexivity.
  - change (User._id alice) with 1%N in Hu. rewrite Hu. reflexivity.
Defined.

Lemma registerForContest_last_slot_witness :
  registerForContest 600 bob 22 (registerForContest 500 alice 22 arena).2
  = (Res 400 (Message "This contest has reached maximum participants"),
     (registerForContest 500 alice 22 arena).2).
Proof.
  destruct (registerForContest_last_slot 500 600 alice bob 22 arena
              (registerForContest 500 alice 22 arena).2
              (Registered 22 false part_completed None) soloContest)
    as [Hclosed | Hfull].
  - vm_compute. reflexivity.
  - reflexivity.
  - reflexivity.
  - vm_compute in Hclosed. discriminate Hclosed.
  - exact Hfull.
Defined.

Lemma registerForContest_negative_capacity_witness :
  registerForContest 500 alice 23 arena
  = (Res 400 (Message "This contest has reached maximum participants"),
     arena).
Proof.
  apply (registerForContest_negative_capacity 500 alice 23 arena
           cursedContest (-1)).
  - reflexivity.
  - reflexivity.
  - lia.
  - reflexivity.
Defined.

(** ** Payment verification, continued *)

Lemma settleParticipant_rest
    (caller : User.t) (payment : Payment.t) (w : DB) :
  users (settleParticipant caller payment w) = users w
  ∧ blogs (settleParticipant caller payment w) = blogs w
  ∧ notifications (settleParticipant caller payment w) = notifications w
  ∧ emitted (settleParticipant caller payment w) = emitted w
  ∧ nextObjectId (settleParticipant caller payment w) = nextObjectId w.
Proof.
  unfold settleParticipant.
  destruct (_ && _); [|done].
  destruct (findByIdOpt _ _); [|done].
  by destruct (findIndex _ _).
Qed.

Lemma settleParticipant_with_payments
    (caller : User.t) (payment : Payment.t) (ps : list Payment.t) (w : DB) :
  contests (settleParticipant caller payment (with_payments ps w))
  = contests (settleParticipant caller payment w).
Proof.
  unfold settleParticipant. simpl.
  destruct (_ && _); [|done].
  destruct (findByIdOpt _ _); [|done].
  by destruct (findIndex _ _).
Qed.

(** The database a verification leaves when the signature is right and
    the payment exists. *)
Lemma verifyPayment_captured_state
    (hmacSha256Hex : string → string → string) (razorpayKeySecret : string)
    (caller : User.t) (body : VerifyBody.t) (w : DB) (payment : Payment.t) :
  VerifyBody.razorpaySignature body
  = Some (generatedSignature hmacSha256Hex razorpayKeySecret body) →
  findByIdOpt (VerifyBody.paymentId body) (payments w) = Some payment →
  ∃ w',
    verifyPayment hmacSha256Hex razorpayKeySecret caller body w
    = (Res 200
         (PaymentVerified (Payment._id payment) (Payment.amount payment)
            pay_completed (Payment.purpose payment)), w')
    ∧ payments w'
      = updateOne
          (Payment.capture (VerifyBody.razorpayPaymentId body)
             (VerifyBody.razorpaySignature body) payment) (payments w)
    ∧ contests w'
      = contests
          (settleParticipant caller
             (Payment.capture (VerifyBody.razorpayPaymentId body)
                (VerifyBody.razorpaySignature body) payment) w)
    ∧ notifications w'
      = notifications w
        ++ [paymentNotification (nextObjectId w) caller
              (Payment.capture (VerifyBody.razorpayPaymentId body)
                 (VerifyBody.razorpaySignature body) payment)]
    ∧ users w' = users w
    ∧ blogs w' = blogs w
    ∧ ∃ e,
        emitted w' = emitted w ++ [e]
        ∧ room e = User.id caller
        ∧ emit_data e
          = paymentNotification (nextObjectId w) caller
              (Payment.capture (VerifyBody.razorpayPaymentId body)
                 (VerifyBody.razorpaySignature body) payment).
Proof.
  intros Hsig Hpay. eexists. split.
  { unfold verifyPayment. rewrite bool_decide_true by congruence.
    rewrite Hpay. simpl. reflexivity. }
  simpl.
  set (payment' := Payment.capture _ _ payment).
  set (w1 := with_payments _ w).
  destruct (settleParticipant_rest caller payment' w1)
    as (Hu & Hb & Hn & He & Hi).
  rewrite settleParticipant_payments, Hu, Hb, Hn, He, Hi.
  subst w1. rewrite settleParticipant_with_payments. simpl.
  repeat split; try done. by eexists.
Qed.









(** ** Revenue *)

Lemma completedAmounts_app (ps qs : list Payment.t) :
  completedAmounts (ps ++ qs) = completedAmounts ps ++ completedAmounts qs.
Proof. unfold completedAmounts. by rewrite filter_app, fmap_app. Qed.

Lemma completedAmounts_cons (p : Payment.t) (ps : list Payment.t) :
  completedAmounts (p :: ps)
  = (if bool_decide (Payment.status p = pay_completed)
     then [Payment.amount p] else []) ++ completedAmounts ps.
Proof.
  unfold completedAmounts. rewrite filter_cons.
  case_decide; [by rewrite bool_decide_true | by rewrite bool_decide_false].
Qed.

(** Replacing a stored payment by a completed one of the same amount
    keeps the list when the payment was completed and inserts its amount
    when it was not. *)
Lemma completedAmounts_updateOne (d x : Payment.t) (ps : list Payment.t) :
  findById (oid d) ps = Some x →
  Payment.status d = pay_completed →
  Payment.amount d = Payment.amount x →
  (Payment.status x = pay_completed →
   completedAmounts (updateOne d ps) = completedAmounts ps)
  ∧ (Payment.status x ≠ pay_completed →
     ∃ l1 l2,
       completedAmounts ps = l1 ++ l2
       ∧ completedAmounts (updateOne d ps) = l1 ++ Payment.amount x :: l2).
Proof.
  intros Hx Hd Ha.
  induction ps as [|y ps IH]; simpl in *; [done|].
  case_bool_decide as Hy.
  - injection Hx as ->. rewrite !completedAmounts_cons, Hd, Ha.
    rewrite bool_decide_true by done. split.
    + intros Hdone. by rewrite bool_decide_true.
    + intros Hnot. rewrite bool_decide_false by done.
      by exists [], (completedAmounts ps).
  - destruct (IH Hx) as [IHdone IHnot].
    rewrite !completedAmounts_cons. split.
    + intros Hdone. by rewrite IHdone.
    + intros Hnot. destruct (IHnot Hnot) as (l1 & l2 & -> & ->).
      exists ((if bool_decide (Payment.status y = pay_completed)
               then [Payment.amount y] else []) ++ l1), l2.
      by rewrite <- !app_assoc.
Qed.

(** X11.  The amounts that [getTotalRevenue] adds up change only by
    captures.  Across every operation of [step] the list of the completed
    payments' amounts, and with it the total, stays as it was, or the
    amount of one stored payment that was not yet completed is inserted
    into it.  A successful verification of a payment that is already
    completed leaves the list and the total as they were, so verifying
    twice counts once; a successful verification of a payment that is not
    completed inserts that payment's amount. *)
Theorem getTotalRevenue_step
    (Number : Type) (zero : Number) (sum : list Z → Number)
    (hmacSha256Hex : string → string → string) (razorpayKeySecret : string)
    (w : DB) :
  (∀ op,
     (completedAmounts
        (payments (step hmacSha256Hex razorpayKeySecret op w).2)
      = completedAmounts (payments w)
      ∧ getTotalRevenue zero sum
          (payments (step hmacSha256Hex razorpayKeySecret op w).2)
        = getTotalRevenue zero sum (payments w))
     ∨ ∃ p l1 l2,
         p ∈ payments w
         ∧ Payment.status p ≠ pay_completed
         ∧ completedAmounts (payments w) = l1 ++ l2
         ∧ completedAmounts
             (payments (step hmacSha256Hex razorpayKeySecret op w).2)
           = l1 ++ Payment.amount p :: l2)
  ∧ (∀ caller body p,
       VerifyBody.razorpaySignature body
       = Some (generatedSignature hmacSha256Hex razorpayKeySecret body) →
       findByIdOpt (VerifyBody.paymentId body) (payments w) = Some p →
       (Payment.status p = pay_completed →
        completedAmounts
          (payments
             (verifyPayment hmacSha256Hex razorpayKeySecret caller body w).2)
        = completedAmounts (payments w)
        ∧ getTotalRevenue zero sum
            (payments
               (verifyPayment hmacSha256Hex razorpayKeySecret caller body
                  w).2)
          = getTotalRevenue zero sum (payments w))
       ∧ (Payment.status p ≠ pay_completed →
          ∃ l1 l2,
            completedAmounts (payments w) = l1 ++ l2
            ∧ completedAmounts
                (payments
                   (verifyPayment hmacSha256Hex razorpayKeySecret caller
                      body w).2)
              = l1 ++ Payment.amount p :: l2)).
Proof.
  split.
  - intros op.
    destruct (step_payments hmacSha256Hex razorpayKeySecret op w)
      as [Heq | q Heq Hq | q rpid rsig Hq Heq].
    + left. unfold getTotalRevenue. by rewrite Heq.
    + left. unfold getTotalRevenue. rewrite Heq.
      rewrite completedAmounts_app, completedAmounts_cons.
      rewrite bool_decide_false by (rewrite Hq; discriminate).
      unfold completedAmounts at 2 4. simpl. by rewrite !app_nil_r.
    + destruct (completedAmounts_updateOne (Payment.capture rpid rsig q) q
                  (payments w) Hq eq_refl eq_refl) as [Hdone Hnot].
      destruct (findById_Some _ _ _ Hq) as [_ Hin].
      destruct (decide (Payment.status q = pay_completed)) as [Hs|Hs].
      * left. unfold getTotalRevenue. rewrite Heq. by rewrite Hdone.
      * right. destruct (Hnot Hs) as (l1 & l2 & H1 & H2).
        exists q, l1, l2. rewrite Heq. done.
  - intros caller body p Hsig Hp.
    destruct (verifyPayment_captured_state hmacSha256Hex razorpayKeySecret
                caller body w p Hsig Hp) as (w' & Hv & Hps & _).
    rewrite Hv. simpl. unfold getTotalRevenue. rewrite Hps.
    assert (Hq : findById (Payment._id p) (payments w) = Some p).
    { destruct (VerifyBody.paymentId body) as [i|]; [|done]. simpl in Hp.
      destruct (findById_Some _ _ _ Hp) as [Hid _].
      change (oid p) with (Payment._id p) in Hid. by rewrite Hid. }
    destruct (completedAmounts_updateOne
                (Payment.capture (VerifyBody.razorpayPaymentId body)
                   (VerifyBody.razorpaySignature body) p) p
                (payments w) Hq eq_refl eq_refl) as [Hdone Hnot].
    split; [|exact Hnot].
    intros Hs. by rewrite Hdone.
Qed.

Lemma getTotalRevenue_step_witness :
  let once := (verifyPayment sampleHmac "secret" bob aliceClaimsBobs campus).2 in
  let twice := (verifyPayment sampleHmac "secret" bob secondCapture once).2 in
  completedAmounts (payments campus) = []
  ∧ completedAmounts (payments once) = [500]
  ∧ completedAmounts (payments twice) = [500]
  ∧ getTotalRevenue 0 (foldr Z.add 0) (payments twice)
    = getTotalRevenue 0 (foldr Z.add 0) (payments once).
Proof.
  intros once twice.
  destruct (getTotalRevenue_step Z 0 (foldr Z.add 0) sampleHmac "secret" once)
    as [_ Hv].
  destruct (Hv bob secondCapture
              (Payment.capture (Some "pay_1") (Some "secret:order_1|pay_1")
                 bobPayment)) as [[Hlist Htotal] _].
  - vm_compute. reflexivity.
  - reflexivity.
  - reflexivity.
  - split; [reflexivity|]. split; [reflexivity|].
    split; [reflexivity | exact Htotal].
Defined.

(** ** Orders *)

(** X12.  [createOrder] writes only when it answers 200: then exactly one
    payment is appended, pending, owned by the caller, with the requested
    amount and the provider's order id; every other answer (400, 404, a
    provider failure, a document the schema rejects) leaves the database
    as it was. *)
Theorem createOrder_persists_on_success
    (provider : Z → string → option RazorpayOrder) (now : Z)
    (caller : User.t) (body : OrderBody.t) (w : DB) :
  (∀ r, (createOrder provider now caller body w).1 = Res 200 r →
     ∃ payment amount order,
       (createOrder provider now caller body w).2
       = with_payments (payments w ++ [payment])
           (newObjectId w).2
       ∧ OrderBody.amount body = Some amount
       ∧ 0 < amount
       ∧ provider (amount * 100)
           ("receipt_" +:+ pretty now +:+ "_" +:+ User.id caller)
         = Some order
       ∧ Payment.status payment = pay_pending
       ∧ Payment.user payment = User._id caller
       ∧ Payment.amount payment = amount
       ∧ Payment.razorpayOrderId payment = Some (order_id order)
       ∧ Payment._id payment = nextObjectId w)
  ∧ ((∀ r, (createOrder provider now caller body w).1 ≠ Res 200 r) →
     (createOrder provider now caller body w).2 = w).
Proof.
  unfold createOrder.
  destruct (OrderBody.amount body) as [amount|]; [|by split].
  case_bool_decide as Hamount; [by split|].
  destruct (negb _); [by split|].
  destruct (_ && _); [by split|].
  destruct (provider _ _) as [order|] eqn:Hprov; [|by split].
  destruct (parsePurpose _) as [purpose|]; [|by split].
  destruct (parseRelatedModel _) as [relatedModel|]; [|by split].
  simpl. split.
  - intros r _. eexists _, amount, order.
    split; [reflexivity|]. split; [done|]. split; [lia|].
    split; [exact Hprov|]. by repeat split.
  - intros Hne. by destruct (Hne (OrderCreated (order_id order)
                                    (order_amount order) (nextObjectId w))).
Qed.

Lemma createOrder_persists_on_success_witness :
  ∃ payment,
    payments
      (createOrder sampleProvider 7 alice
         (OrderBody.mk (Some 250) (Some "other") None None) campus).2
    = payments campus ++ [payment]
    ∧ Payment.status payment = pay_pending
    ∧ Payment.razorpayOrderId payment = Some "order_77".
Proof.
  destruct (createOrder_persists_on_success sampleProvider 7 alice
              (OrderBody.mk (Some 250) (Some "other") None None) campus)
    as [Hok _].
  destruct (Hok (OrderCreated "order_77" 25000 100))
    as (payment & amount & order & Hw & _ & _ & Hp & Hs & _ & _ & Ho & _).
  - vm_compute. reflexivity.
  - exists payment. rewrite Hw. simpl. split; [done|]. split; [done|].
    rewrite Ho. vm_compute in Hp. injection Hp as <-. reflexivity.
Defined.

(** X13.  A related entity can only be a contest.  With a [relatedId]
    and a [relatedModel] other than "Contest" (the schema's "User"
    included), [createOrder] answers 404 and writes nothing, whether or
    not a document with that id exists. *)
Theorem createOrder_related_model
    (provider : Z → string → option RazorpayOrder) (now : Z)
    (caller : User.t) (body : OrderBody.t) (w : DB)
    (amount : Z) (relatedId : ObjectId) (relatedModel : string) :
  OrderBody.amount body = Some amount →
  0 < amount →
  truthy (OrderBody.purpose body) = true →
  OrderBody.relatedId body = Some relatedId →
  OrderBody.relatedModel body = Some relatedModel →
  relatedModel ≠ "" →
  relatedModel ≠ "Contest" →
  createOrder provider now caller body w
  = (Res 404 (Message (relatedModel +:+ " not found")), w).
Proof.
  intros Ha Hpos Hp Hi Hm Hne Hnc. unfold createOrder.
  rewrite Ha, Hp, Hi, Hm. rewrite bool_decide_false by lia. simpl.
  rewrite (bool_decide_false (relatedModel = "")) by done.
  rewrite (bool_decide_false (Some relatedModel = _)) by congruence.
  done.
Qed.

Lemma createOrder_related_model_witness :
  createOrder sampleProvider 7 alice
    (OrderBody.mk (Some 250) (Some "other") (Some 2%N) (Some "User")) campus
  = (Res 404 (Message "User not found"), campus).
Proof.
  apply (createOrder_related_model sampleProvider 7 alice _ campus 250 2
           "User"); try reflexivity; discriminate.
Defined.

(** ** User deletion, continued *)

Lemma findById_fmap {A : Type} `{Document A} (f : A → A) (i : ObjectId)
    (c : list A) :
  (∀ d, oid (f d) = oid d) →
  findById i (f <$> c) = f <$> findById i c.
Proof.
  intros Hf. induction c as [|d c IH]; simpl; [done|].
  rewrite Hf. by case_bool_decide.
Qed.

Lemma findById_deleteOne_ne {A : Type} `{Document A} (i j : ObjectId)
    (c : list A) :
  j ≠ i → findById j (deleteOne i c) = findById j c.
Proof.
  intros Hne. induction c as [|d c IH]; simpl; [done|].
  case_bool_decide as Hd; simpl.
  - rewrite bool_decide_false by congruence. done.
  - case_bool_decide; [done | apply IH].
Qed.

(** The database a successful deletion leaves. *)
Lemma deleteUser_deleted_state
    (caller : User.t) (userId : ObjectId) (w : DB) (user : User.t) :
  findById userId (users w) = Some user →
  userId ≠ User._id caller →
  deleteUser caller userId w
  = (Res 200 (Message "User and all associated data deleted"),
     mkDB (deleteOne userId (users w))
       (deleteMany (λ b, bool_decide (Blog.author b = userId)) (blogs w))
       (pullParticipant userId <$> contests w)
       (payments w)
       (deleteMany (mentions userId) (notifications w))
       (emitted w) (nextObjectId w)).
Proof.
  intros Hu Hne. destruct (findById_Some _ _ _ Hu) as [Hid _].
  change (oid user) with (User._id user) in Hid.
  unfold deleteUser. rewrite Hu.
  rewrite bool_decide_false.
  - by rewrite Hid.
  - unfold User.id. intros Heq%toString_inj. congruence.
Qed.

(** X14.  The contest cascade of [deleteUser]: in every contest the
    deleted user's participant entries are removed and the entries of
    all other participants are kept, in order, with the rest of the
    contest unchanged; afterwards no contest lists the user. *)
Theorem deleteUser_pulls_participant
    (caller : User.t) (userId : ObjectId) (w : DB) (user : User.t) :
  findById userId (users w) = Some user →
  userId ≠ User._id caller →
  (∀ j c,
     findById j (contests w) = Some c →
     findById j (contests (deleteUser caller userId w).2)
     = Some (Contest.with_participants
               (filter (λ p, Participant.user p ≠ userId)
                  (Contest.participants c)) c))
  ∧ (∀ j, findById j (contests w) = None →
          findById j (contests (deleteUser caller userId w).2) = None)
  ∧ ∀ c p,
      c ∈ contests (deleteUser caller userId w).2 →
      p ∈ Contest.participants c →
      Participant.user p ≠ userId.
Proof.
  intros Hu Hne. rewrite (deleteUser_deleted_state caller userId w user)
    by done. simpl.
  split; [|split].
  - intros j c Hc. rewrite findById_fmap by done. by rewrite Hc.
  - intros j Hc. rewrite findById_fmap by done. by rewrite Hc.
  - intros c p Hc Hp. apply list_elem_of_fmap in Hc as (c0 & -> & _).
    simpl in Hp. by apply list_elem_of_filter in Hp as [? _].
Qed.

Lemma deleteUser_pulls_participant_witness :
  Contest.participants
    <$> findById 21 (contests (deleteUser root 2 rivals).2)
  = Some [Participant.mk 1 950 part_pending (Some 31%N)].
Proof.
  destruct (deleteUser_pulls_participant root 2 rivals bob) as [Hc _].
  - reflexivity.
  - vm_compute. discriminate.
  - rewrite (Hc 21%N rivalsContest); [|reflexivity]. vm_compute. reflexivity.
Defined.

(** X15.  What [deleteUser] leaves alone: the Payment collection (the
    deleted user's payments stay, still naming the user), the push log,
    every other user document and every blog of another author; the
    deleted user's blogs are gone. *)
Theorem deleteUser_leaves
    (caller : User.t) (userId : ObjectId) (w : DB) (user : User.t) :
  findById userId (users w) = Some user →
  userId ≠ User._id caller →
  payments (deleteUser caller userId w).2 = payments w
  ∧ emitted (deleteUser caller userId w).2 = emitted w
  ∧ (∀ j, j ≠ userId →
          findById j (users (deleteUser caller userId w).2)
          = findById j (users w))
  ∧ ∀ b,
      b ∈ blogs (deleteUser caller userId w).2
      ↔ b ∈ blogs w ∧ Blog.author b ≠ userId.
Proof.
  intros Hu Hne. rewrite (deleteUser_deleted_state caller userId w user)
    by done. simpl.
  split; [done|]. split; [done|]. split.
  - intros j Hj. by apply findById_deleteOne_ne.
  - intros b. rewrite elem_of_deleteMany, bool_decide_eq_false. done.
Qed.

Lemma deleteUser_leaves_witness :
  payments (deleteUser root 2 rivals).2 = [bobPayment; alicePayment].
Proof.
  destruct (deleteUser_leaves root 2 rivals bob) as [Hp _].
  - reflexivity.
  - vm_compute. discriminate.
  - exact Hp.
Defined.

(** X16.  Through its route, [deleteUser] changes the database only
    when an authenticated administrator names an existing user other
    than the administrator. *)
Theorem deleteUserRoute_guard
    (user : option User.t) (userId : ObjectId) (w : DB) :
  (deleteUserRoute user userId w).2 ≠ w →
  ∃ caller target,
    user = Some caller
    ∧ User.role caller = admin
    ∧ findById userId (users w) = Some target
    ∧ userId ≠ User._id caller.
Proof.
  unfold deleteUserRoute. destruct user as [caller|]; [|done]. simpl.
  case_bool_decide as Hrole; simpl; [|done].
  unfold deleteUser.
  destruct (findById userId (users w)) as [target|] eqn:Ht; [|done].
  case_bool_decide as Hself; [done|]. intros _.
  exists caller, target. repeat split; [done..|].
  destruct (findById_Some _ _ _ Ht) as [Hid _].
  intros ->. apply Hself. unfold User.id. f_equal. exact Hid.
Qed.

Lemma deleteUserRoute_guard_witness :
  ∃ caller target,
    Some root = Some caller
    ∧ User.role caller = admin
    ∧ findById 1 (users noticeBoard) = Some target
    ∧ 1%N ≠ User._id caller.
Proof.
  apply (deleteUserRoute_guard (Some root) 1 noticeBoard).
  intros H. apply (f_equal (λ w, length (users w))) in H.
  vm_compute in H. discriminate H.
Defined.

(** ** Role middleware *)

(** X17.  Through its route, registration changes the database only for
    an authenticated student whose registration is accepted. *)
Theorem registerRoute_guard
    (now : Z) (user : option User.t) (contestId : ObjectId) (w : DB) :
  (registerRoute now user contestId w).2 ≠ w →
  ∃ caller body,
    user = Some caller
    ∧ User.role caller = student
    ∧ (registerRoute now user contestId w).1 = Res 200 body.
Proof.
  unfold registerRoute. destruct user as [caller|]; [|done]. simpl.
  case_bool_decide as Hrole; simpl; [|done].
  unfold registerForContest.
  destruct (findById contestId (contests w)) as [contest|]; [|done].
  destruct (negb _); [done|].
  destruct (Contest.isFull contest); [done|].
  destruct (some _ _); [done|]. intros _. simpl.
  case_bool_decide; simpl; eexists caller, _; by repeat split.
Qed.

Lemma registerRoute_guard_witness :
  ∃ caller body,
    Some alice = Some caller
    ∧ User.role caller = student
    ∧ (registerRoute 500 (Some alice) 20 campus).1 = Res 200 body.
Proof.
  apply (registerRoute_guard 500 (Some alice) 20 campus).
  intros H. apply (f_equal (λ w, length <$> (Contest.participants
                                       <$> contests w))) in H.
  vm_compute in H. discriminate H.
Defined.

(** X18.  The owner guard of the blog routes lets an authenticated
    caller through exactly when the caller is an administrator or the
    blog exists and the caller is its author; for a blog that does not
    exist a student is refused before the handler can answer 404. *)
Theorem blogOwnerGuard_passes (u : User.t) (blogId : ObjectId) (w : DB) :
  blogOwnerGuard (Some u) blogId w = None
  ↔ User.role u = admin
    ∨ ∃ b, findById blogId (blogs w) = Some b ∧ Blog.author b = User._id u.
Proof.
  unfold blogOwnerGuard, isOwnerOrAdmin.
  case_bool_decide as Hrole; [by split; [left|]|].
  destruct (findById blogId (blogs w)) as [b|]; simpl.
  - case_bool_decide as Hown; simpl.
    + split; [|done]. intros _. right. exists b. split; [done|].
      by apply toString_inj.
    + split; [done|]. intros [?|(b' & [= <-] & Hb)]; [done|].
      destruct Hown. unfold User.id. by rewrite Hb.
  - split; [done|]. by intros [?|(b' & ? & _)].
Qed.

(** ** Promotion to administrator *)

(** *** The matcher *)

Lemma string_app_nil (x y : string) : x +:+ y = "" → x = "" ∧ y = "".
Proof. destruct x; simpl; [done | discriminate]. Qed.

Lemma nullable_Matches (r : RegExp) : nullable r = true ↔ Matches r "".
Proof.
  split.
  - induction r; simpl; try done.
    + intros _. constructor.
    + intros [H1 H2]%andb_prop.
      change "" with ("" +:+ ""). constructor; auto.
    + intros [H1 | H2]%orb_prop;
        [apply matches_alt_l | apply matches_alt_r]; auto.
    + intros _. constructor.
  - intros H. remember "" as t eqn:Ht.
    induction H; simpl; try done.
    + apply string_app_nil in Ht as [-> ->]. by rewrite IHMatches1, IHMatches2.
    + by rewrite IHMatches.
    + rewrite IHMatches by done. apply orb_true_r.
Qed.

Lemma derive_Matches (a : ascii) (r : RegExp) (s : string) :
  Matches (derive a r) s ↔ Matches r (String a s).
Proof.
  split.
  - revert s. induction r as [| |p|r1 IH1 r2 IH2|r1 IH1 r2 IH2|r IH];
      intros s; simpl.
    + inversion 1.
    + inversion 1.
    + destruct (p a) eqn:Hp; inversion 1; subst. by constructor.
    + assert (Hseq : Matches (re_seq (derive a r1) r2) s →
                     Matches (re_seq r1 r2) (String a s)).
      { inversion 1 as [| |? ? x y Hx Hy| | | |]; subst.
        change (String a (x +:+ y)) with (String a x +:+ y).
        constructor; auto. }
      destruct (nullable r1) eqn:Hn; [|done].
      inversion 1 as [| | |? ? ? Hl|? ? ? Hr| |]; subst; [auto|].
      change (String a s) with ("" +:+ String a s).
      constructor; [by apply nullable_Matches | auto].
    + inversion 1; subst;
        [apply matches_alt_l | apply matches_alt_r]; auto.
    + inversion 1 as [| |? ? x y Hx Hy| | | |]; subst.
      change (String a (x +:+ y)) with (String a x +:+ y).
      constructor; auto.
  - intros H. remember (String a s) as t eqn:Ht. revert a s Ht.
    induction H as [|p b Hb|r1 r2 x y H1 IH1 H2 IH2|r1 r2 x H IH
                    |r1 r2 x H IH|r|r x y H1 IH1 H2 IH2];
      intros a s Ht; simpl.
    + done.
    + injection Ht as -> <-. rewrite Hb. constructor.
    + destruct x as [|b x]; simpl in Ht.
      * apply nullable_Matches in H1. rewrite H1.
        apply matches_alt_r. by apply IH2.
      * injection Ht as -> <-.
        assert (Matches (re_seq (derive a r1) r2) (x +:+ y))
          by (constructor; auto).
        destruct (nullable r1); [by apply matches_alt_l | done].
    + apply matches_alt_l. by apply IH.
    + apply matches_alt_r. by apply IH.
    + done.
    + destruct x as [|b x]; simpl in Ht.
      * by apply IH2.
      * injection Ht as -> <-. constructor; auto.
Qed.

(** [RegExp_test] decides the pattern. *)
Lemma RegExp_test_Matches (r : RegExp) (s : string) :
  RegExp_test r s = true ↔ Matches r s.
Proof.
  revert r. induction s as [|a s IH]; intros r; simpl.
  - apply nullable_Matches.
  - rewrite IH. apply derive_Matches.
Qed.

(** The pattern on the stored emails used below. *)
Example emailPattern_samples :
  RegExp_test emailPattern "carol@sgsu.edu" = true
  ∧ RegExp_test emailPattern "first.last-x@mail.sgsu.ac.in" = true
  ∧ RegExp_test emailPattern "bob@sgsu.example" = false
  ∧ RegExp_test emailPattern "eve.at.sgsu" = false
  ∧ RegExp_test emailPattern "a..b@sgsu.edu" = false
  ∧ RegExp_test emailPattern "a@b.c" = false
  ∧ RegExp_test emailPattern "" = false.
Proof. vm_compute. repeat split; reflexivity. Qed.

(** The database a promotion leaves. *)
Lemma makeAdmin_promoted_state
    (profileValid : ObjectId → bool) (caller : User.t) (userId : ObjectId)
    (w : DB) (u : User.t) :
  findById userId (users w) = Some u →
  User.role u = student →
  User_validate profileValid (User_with_role admin u) = true →
  makeAdmin profileValid caller userId w
  = (Sent 200
       (User._id u, User.name u, User.email u, admin),
     mkDB (updateOne (User_with_role admin u) (users w)) (blogs w)
       (contests w) (payments w)
       (notifications w
        ++ [Notification.mk (nextObjectId w) "Role Upgraded to Admin"
              "You have been granted administrator privileges on the platform."
              (User._id caller) rcp_specific [User._id u] important (Some ∅)
              rel_account None None])
       (emitted w
        ++ [mkEmit (toString (User._id u)) "ROLE_CHANGE"
              "You are now an admin"
              (Notification.mk (nextObjectId w) "Role Upgraded to Admin"
                 "You have been granted administrator privileges on the platform."
                 (User._id caller) rcp_specific [User._id u] important
                 (Some ∅) rel_account None None)])
       (N.succ (nextObjectId w))).
Proof.
  intros Hu Hrole Hvalid. unfold makeAdmin. rewrite Hu.
  rewrite bool_decide_false by (rewrite Hrole; discriminate).
  by rewrite Hvalid.
Qed.

(** A promotion that [user.save()] rejects writes nothing. *)
Lemma makeAdmin_rejected
    (profileValid : ObjectId → bool) (caller : User.t) (userId : ObjectId)
    (w : DB) (u : User.t) :
  findById userId (users w) = Some u →
  User.role u = student →
  User_validate profileValid (User_with_role admin u) = false →
  makeAdmin profileValid caller userId w = (Thrown "ValidationError", w).
Proof.
  intros Hu Hrole Hvalid. unfold makeAdmin. rewrite Hu.
  rewrite bool_decide_false by (rewrite Hrole; discriminate).
  by rewrite Hvalid.
Qed.

(** X19.  [makeAdmin] on a stored student first has [user.save()]
    validate the whole stored document.  When the document fails (an
    empty name, an email that does not match the schema's pattern, an
    invalid [bio] or [year]) the call is answered [next(ValidationError)]
    and writes nothing.  When it passes, the call sets that user's role
    to admin and nothing else in the user store, creates one notification
    addressed to the promoted user alone, and cannot be repeated: a
    second call for the same user, by anyone, is answered 400 and writes
    nothing. *)
Theorem makeAdmin_promotes
    (profileValid : ObjectId → bool) (caller caller' : User.t)
    (userId : ObjectId) (w : DB) (u : User.t) :
  findById userId (users w) = Some u →
  User.role u = student →
  (User_validate profileValid (User_with_role admin u) = false →
   makeAdmin profileValid caller userId w = (Thrown "ValidationError", w))
  ∧ (User_validate profileValid (User_with_role admin u) = true →
     (makeAdmin profileValid caller userId w).1
     = Sent 200 (userId, User.name u, User.email u, admin)
     ∧ findById userId (users (makeAdmin profileValid caller userId w).2)
       = Some (User_with_role admin u)
     ∧ (∀ j, j ≠ userId →
             findById j (users (makeAdmin profileValid caller userId w).2)
             = findById j (users w))
     ∧ (∃ n,
          notifications (makeAdmin profileValid caller userId w).2
          = notifications w ++ [n]
          ∧ Notification.targetUsers n = [userId]
          ∧ Notification.sender n = User._id caller
          ∧ Notification.relatedTo n = rel_account
          ∧ Notification.relatedId n = None)
     ∧ makeAdmin profileValid caller' userId
         (makeAdmin profileValid caller userId w).2
       = (Refused 400 "User is already an admin",
          (makeAdmin profileValid caller userId w).2)).
Proof.
  intros Hu Hrole. split; [by apply makeAdmin_rejected|]. intros Hvalid.
  rewrite (makeAdmin_promoted_state profileValid caller userId w u) by done.
  simpl. destruct (findById_Some _ _ _ Hu) as [Hid _].
  change (oid u) with (User._id u) in Hid.
  assert (Hu' : findById userId (updateOne (User_with_role admin u) (users w))
                = Some (User_with_role admin u)).
  { rewrite <- Hid in Hu |- *.
    exact (findById_updateOne_eq (users w) (User_with_role admin u) u Hu). }
  split; [by rewrite Hid|].
  split; [exact Hu'|]. split.
  { intros j Hj. apply findById_updateOne_ne.
    change (oid (User_with_role admin u)) with (User._id u). congruence. }
  split.
  { eexists. split; [reflexivity|]. simpl. by rewrite Hid. }
  unfold makeAdmin. simpl. by rewrite Hu'.
Qed.

Lemma makeAdmin_promotes_witness :
  makeAdmin sampleProfile dean 4 faculty = (Thrown "ValidationError", faculty)
  ∧ (makeAdmin sampleProfile dean 3 faculty).1
    = Sent 200 (3%N, "Carol", "carol@sgsu.edu", admin)
  ∧ User.role
      <$> findById 3 (users (makeAdmin sampleProfile dean 3 faculty).2)
    = Some admin
  ∧ makeAdmin sampleProfile carol 3 (makeAdmin sampleProfile dean 3 faculty).2
    = (Refused 400 "User is already an admin",
       (makeAdmin sampleProfile dean 3 faculty).2).
Proof.
  destruct (makeAdmin_promotes sampleProfile dean carol 4 faculty eve)
    as [Hrejected _]; [reflexivity..|].
  destruct (makeAdmin_promotes sampleProfile dean carol 3 faculty carol)
    as [_ Hpromoted]; [reflexivity..|].
  destruct Hpromoted as (Hsent & Hu & _ & _ & Hagain);
    [vm_compute; reflexivity|].
  split; [apply Hrejected; vm_compute; reflexivity|].
  split; [exact Hsent|].
  split; [by rewrite Hu | exact Hagain].
Defined.

(** With the stored email of the sample student Bob, which ends in a
    label of seven letters, the promotion is refused by validation. *)
Example makeAdmin_invalid_email :
  makeAdmin sampleProfile root 2 campus = (Thrown "ValidationError", campus).
Proof. vm_compute. reflexivity. Qed.

Lemma studentIds_cons (u : User.t) (us : list User.t) :
  studentIds (u :: us)
  = if bool_decide (User.role u = student) then User._id u :: studentIds us
    else studentIds us.
Proof.
  unfold studentIds. rewrite filter_cons.
  case_decide; [by rewrite bool_decide_true | by rewrite bool_decide_false].
Qed.

Lemma studentIds_subset (i : ObjectId) (us : list User.t) :
  i ∈ studentIds us → i ∈ User._id <$> us.
Proof.
  unfold studentIds. intros (u & -> & Hu)%list_elem_of_fmap.
  apply list_elem_of_fmap. exists u. split; [done|].
  by apply list_elem_of_filter in Hu as [_ ?].
Qed.

Lemma filter_ne_absent (i : ObjectId) (l : list ObjectId) :
  i ∉ l → filter (λ j, j ≠ i) l = l.
Proof.
  induction l as [|a l IH]; [done|]. intros Hnot.
  apply not_elem_of_cons in Hnot as [Hne Hnot].
  rewrite filter_cons. rewrite decide_True by done. by rewrite IH.
Qed.

Lemma studentIds_promoted (userId : ObjectId) (us : list User.t) (u : User.t) :
  NoDup (User._id <$> us) →
  findById userId us = Some u →
  User.role u = student →
  studentIds (updateOne (User_with_role admin u) us)
  = filter (λ j, j ≠ userId) (studentIds us).
Proof.
  intros Hnd Hu Hrole. destruct (findById_Some _ _ _ Hu) as [Hid _].
  change (oid u) with (User._id u) in Hid.
  induction us as [|x us IH]; simpl in *; [done|].
  apply NoDup_cons in Hnd as [Hx Hnd].
  change (oid x) with (User._id x) in *.
  change (oid (User_with_role admin u)) with (User._id u).
  rewrite Hid. case_bool_decide as Hxu.
  - injection Hu as ->. rewrite !studentIds_cons. simpl.
    rewrite bool_decide_true by done. rewrite filter_cons.
    rewrite decide_False by (intros H; by apply H).
    rewrite filter_ne_absent; [done|].
    intros Hin%studentIds_subset. by rewrite <- Hxu in Hin.
  - rewrite !studentIds_cons. case_bool_decide.
    + rewrite filter_cons. rewrite decide_True by done. f_equal. by apply IH.
    + by apply IH.
Qed.

(** X20.  A promoted user drops out of the broadcasts.  With distinct
    user ids, after a [makeAdmin] that passed the validation of
    [user.save()], a notification that [createNotification] persists
    through its all-students branch is addressed to the students of
    before the promotion without the promoted user. *)
Theorem makeAdmin_leaves_broadcast
    (profileValid : ObjectId → bool) (caller sender : User.t)
    (userId : ObjectId) (w w' : DB) (u : User.t)
    (body : NotificationBody.t) (n : Notification.t) :
  NoDup (User._id <$> users w) →
  findById userId (users w) = Some u →
  User.role u = student →
  User_validate profileValid (User_with_role admin u) = true →
  isSpecific body = false →
  createNotification [] sender body
    (makeAdmin profileValid caller userId w).2
  = (Res 201 (NotificationSent n), w') →
  Notification.recipients n = rcp_all
  ∧ Notification.targetUsers n
    = filter (λ j, j ≠ userId) (studentIds (users w))
  ∧ userId ∉ Notification.targetUsers n.
Proof.
  intros Hnd Hu Hrole Hvalid Hall Hcreate.
  destruct (createNotification_validated sender body
              (makeAdmin profileValid caller userId w).2)
    as [Hfail | (n0 & w0 & Hrun & _ & Hrcp)];
    [by rewrite Hfail in Hcreate|].
  rewrite Hrun in Hcreate. injection Hcreate as -> ->.
  unfold resolveRecipients in Hrcp. rewrite Hall in Hrcp.
  injection Hrcp as Hr Ht. split; [done|].
  rewrite (makeAdmin_promoted_state profileValid caller userId w u) in Ht
    by done.
  simpl in Ht. rewrite (studentIds_promoted userId) in Ht by done.
  split; [done|]. rewrite Ht. intros Hin.
  by apply list_elem_of_filter in Hin as [? _].
Qed.

Lemma makeAdmin_leaves_broadcast_witness :
  ∃ n,
    (createNotification [] dean termNotice
       (makeAdmin sampleProfile dean 3 faculty).2).1
    = Res 201 (NotificationSent n)
    ∧ Notification.targetUsers n = [4%N].
Proof.
  assert (Hrun : ∃ n w',
            createNotification [] dean termNotice
              (makeAdmin sampleProfile dean 3 faculty).2
            = (Res 201 (NotificationSent n), w')).
  { eexists _, _. vm_compute. reflexivity. }
  destruct Hrun as (n & w' & Hrun).
  destruct (makeAdmin_leaves_broadcast sampleProfile dean dean 3 faculty w'
              carol termNotice n) as (_ & Ht & _).
  - apply (bool_decide_unpack (NoDup (User._id <$> users faculty))).
    vm_compute. exact I.
  - reflexivity.
  - reflexivity.
  - vm_compute. reflexivity.
  - reflexivity.
  - exact Hrun.
  - exists n. rewrite Hrun. split; [reflexivity|]. rewrite Ht.
    vm_compute. reflexivity.
Defined.

(** ** Contest status *)

Lemma Contest_updateStatus_status (now : Z) (c : Contest.t) :
  Contest.status c ≠ cancelled →
  Contest.status (Contest_updateStatus now c)
  = if bool_decide (now < Contest.startDate c) then upcoming
    else if bool_decide (now ≤ Contest.endDate c) then ongoing
    else completed.
Proof.
  intros Hc. unfold Contest_updateStatus.
  rewrite bool_decide_false by done.
  repeat case_bool_decide; simpl; try done; lia.
Qed.

(** X21.  As the clock advances the status that [updateStatus] derives
    for a contest that is not cancelled only moves forward: once
    completed it stays completed, once ongoing it is ongoing or
    completed, and it is never cancelled. *)
Theorem Contest_updateStatus_advances (now now' : Z) (c : Contest.t) :
  Contest.status c ≠ cancelled →
  now ≤ now' →
  (Contest.status (Contest_updateStatus now c) = completed →
   Contest.status (Contest_updateStatus now' c) = completed)
  ∧ (Contest.status (Contest_updateStatus now c) = ongoing →
     Contest.status (Contest_updateStatus now' c) = ongoing
     ∨ Contest.status (Contest_updateStatus now' c) = completed)
  ∧ Contest.status (Contest_updateStatus now' c) ≠ cancelled.
Proof.
  intros Hc Hle. rewrite !Contest_updateStatus_status by done.
  repeat case_bool_decide; repeat split; try done; try lia; auto.
Qed.

Lemma Contest_updateStatus_advances_witness :
  Contest.status (Contest_updateStatus 2500 freeContest) = ongoing
  ∧ (Contest.status (Contest_updateStatus 3500 freeContest) = ongoing
     ∨ Contest.status (Contest_updateStatus 3500 freeContest) = completed).
Proof.
  destruct (Contest_updateStatus_advances 2500 3500 freeContest)
    as (_ & Hon & _).
  - discriminate.
  - lia.
  - split; [reflexivity|]. apply Hon. reflexivity.
Defined.

(** X22.  A contest whose [endDate] lies before its [startDate] is never
    ongoing: [updateStatus] takes it from upcoming straight to
    completed. *)
Theorem Contest_updateStatus_inverted_schedule (now : Z) (c : Contest.t) :
  Contest.status c ≠ cancelled →
  Contest.endDate c < Contest.startDate c →
  Contest.status (Contest_updateStatus now c)
  = if bool_decide (now < Contest.startDate c) then upcoming else completed.
Proof.
  intros Hc Hinv. rewrite Contest_updateStatus_status by done.
  repeat case_bool_decide; try done; lia.
Qed.

Lemma Contest_updateStatus_inverted_schedule_witness :
  Contest.status
    (Contest_updateStatus 2500
       (Contest.mk 24 "Sprint" 3000 2000 1000 0 None [] ongoing true))
  = upcoming.
Proof.
  rewrite Contest_updateStatus_inverted_schedule.
  - reflexivity.
  - discriminate.
  - simpl. lia.
Defined.

(** X23.  Only cancellation sticks.  [updateStatus] returns a cancelled
    contest as it is, at every time; for any other stored status the
    result depends on the schedule and the clock alone, so a status set
    by hand is overwritten; and applying it twice at the same time is
    the same as applying it once. *)
Theorem Contest_updateStatus_sticky (now : Z) (c : Contest.t) :
  (Contest.status c = cancelled → Contest_updateStatus now c = c)
  ∧ (∀ s, s ≠ cancelled → Contest.status c ≠ cancelled →
          Contest_updateStatus now (Contest_with_status s c)
          = Contest_updateStatus now c)
  ∧ Contest_updateStatus now (Contest_updateStatus now c)
    = Contest_updateStatus now c.
Proof.
  split; [|split].
  - intros Hc. unfold Contest_updateStatus. by rewrite bool_decide_true.
  - intros s Hs Hc. unfold Contest_updateStatus. simpl.
    rewrite !bool_decide_false by done.
    repeat case_bool_decide; simpl; try done; lia.
  - destruct (decide (Contest.status c = cancelled)) as [Hc|Hc].
    + assert (Hfix : Contest_updateStatus now c = c).
      { unfold Contest_updateStatus. by rewrite bool_decide_true. }
      by rewrite !Hfix.
    + unfold Contest_updateStatus.
      rewrite (bool_decide_false (Contest.status c = cancelled)) by done.
      destruct (bool_decide (now < Contest.startDate c)) eqn:H1; simpl.
      { by rewrite H1. }
      destruct (bool_decide (Contest.startDate c ≤ now)
                && bool_decide (now ≤ Contest.endDate c)) eqn:H2; simpl.
      { by rewrite H1, H2. }
      destruct (bool_decide (Contest.endDate c < now)) eqn:H3; simpl.
      { by rewrite H1, H2, H3. }
      rewrite (bool_decide_false (Contest.status c = cancelled)) by done.
      by rewrite H1, H2, H3.
Qed.

Lemma Contest_updateStatus_sticky_witness :
  Contest_updateStatus 2500
    (Contest.mk 24 "Sprint" 2000 3000 1000 0 None [] cancelled true)
  = Contest.mk 24 "Sprint" 2000 3000 1000 0 None [] cancelled true.
Proof.
  destruct (Contest_updateStatus_sticky 2500
              (Contest.mk 24 "Sprint" 2000 3000 1000 0 None [] cancelled true))
    as [Hfix _].
  apply Hfix. reflexivity.
Defined.

(** ** Reading a contest *)

Lemma Contest_updateStatus_participants (now : Z) (c : Contest.t) :
  Contest.participants (Contest_updateStatus now c) = Contest.participants c
  ∧ Contest._id (Contest_updateStatus now c) = Contest._id c.
Proof. unfold Contest_updateStatus. by repeat case_bool_decide. Qed.

Lemma findRegistration_known
    (us : list User.t) (caller : User.t) (ps : list Participant.t) :
  (∀ p, p ∈ ps → is_Some (findById (Participant.user p) us)) →
  findRegistration us (User.id caller) ps
  = Some (List.find (isParticipant caller) ps).
Proof.
  induction ps as [|p ps IH]; intros Hknown; simpl; [done|].
  destruct (Hknown p) as [u Hu]; [constructor|]. rewrite Hu.
  destruct (findById_Some _ _ _ Hu) as [Hid _].
  change (oid u) with (User._id u) in Hid. rewrite Hid.
  unfold isParticipant at 1.
  case_bool_decide; [done|]. apply IH.
  intros q Hq. apply Hknown. by constructor.
Qed.

Lemma find_some {A : Type} (f : A → bool) (l : list A) :
  is_Some (List.find f l) ↔ some f l = true.
Proof.
  unfold some. induction l as [|a l IH]; simpl.
  - split; [by intros [? ?] | done].
  - destruct (f a); simpl; [|done]. split; [done | by eexists].
Qed.

(** X24.  What [getContestById] reports about the caller.  When every
    participant's user document exists, an authenticated caller is told
    [isRegistered] exactly when [registerForContest] would find the
    caller already registered, with the [paymentStatus] of the caller's
    first entry; the route, which runs no authentication, reports "not
    registered" for the same contest whoever asks. *)
Theorem getContestById_registration
    (now : Z) (caller : User.t) (contestId : ObjectId) (w : DB)
    (c : Contest.t) :
  findById contestId (contests w) = Some c →
  (∀ p, p ∈ Contest.participants c →
        is_Some (findById (Participant.user p) (users w))) →
  (getContestById now (Some caller) contestId w).1
  = Sent 200
      (Contest_updateStatus now c,
       some (isParticipant caller) (Contest.participants c),
       Participant.paymentStatus
         <$> List.find (isParticipant caller) (Contest.participants c))
  ∧ (getContestRoute now contestId w).1
    = Sent 200 (Contest_updateStatus now c, false, None).
Proof.
  intros Hc Hknown. unfold getContestRoute, getContestById. rewrite Hc.
  simpl. split; [|done].
  destruct (Contest_updateStatus_participants now c) as [-> _].
  rewrite findRegistration_known by done.
  destruct (List.find _ _) as [p|] eqn:Hfind; simpl.
  - rewrite (proj1 (find_some _ _)); [done|]. rewrite Hfind. by eexists.
  - destruct (some _ _) eqn:Hs; [|done].
    apply find_some in Hs. rewrite Hfind in Hs. by destruct Hs.
Qed.

Lemma getContestById_registration_witness :
  (getContestById 500 (Some bob) 21 campus).1
  = Sent 200 (paidContest, true, Some part_pending)
  ∧ (getContestRoute 500 21 campus).1 = Sent 200 (paidContest, false, None).
Proof.
  destruct (getContestById_registration 500 bob 21 campus paidContest)
    as [Hme Hroute].
  - reflexivity.
  - intros p Hp. simpl in Hp. apply list_elem_of_singleton in Hp. subst p.
    by eexists.
  - rewrite Hme, Hroute. split; reflexivity.
Defined.

(** ** Creating and updating contests *)

Lemma emit_rooms {A : Type} (f : A → Emit) (g : A → string) (l : list A) :
  (∀ x, room (f x) = g x) → room <$> (f <$> l) = g <$> l.
Proof.
  intros Hf. induction l as [|x l IH]; [done|].
  rewrite !fmap_cons. by rewrite Hf, IH.
Qed.

(** What [new Contest(..)] stores for the numbers of the request. *)
Lemma newContest_Some
    (Number_ofString : string → option Z) (i : ObjectId)
    (body : ContestBody.t) (c : Contest.t) :
  newContest Number_ofString i body = Some c →
  Contest._id c = i
  ∧ Contest.status c = upcoming
  ∧ Contest.participants c = []
  ∧ Some (Contest.entryFee c)
    = (if JsonValue_truthy (ContestBody.entryFee body)
       then ContestBody.entryFee body ≫= castNumber Number_ofString
       else Some 0)
  ∧ Some (Contest.maxParticipants c)
    = (if JsonValue_truthy (ContestBody.maxParticipants body)
       then Some (ContestBody.maxParticipants body
                    ≫= castNumber Number_ofString)
       else Some None)
  ∧ (JsonValue_truthy (ContestBody.maxParticipants body) = true →
     is_Some (Contest.maxParticipants c)).
Proof.
  unfold newContest.
  destruct (ContestBody.title body); [|done].
  destruct (ContestBody.startDate body); [|done].
  destruct (ContestBody.endDate body); [|done].
  destruct (ContestBody.registrationDeadline body); [|done].
  destruct (_ && _); [|done].
  destruct (ContestBody.entryFee body) as [[zf|sf|[]|]|],
    (ContestBody.maxParticipants body) as [[zm|sm|[]|]|]; simpl;
    repeat case_bool_decide; simpl;
    repeat
      match goal with
      | |- context [Number_ofString ?s] => destruct (Number_ofString s)
      end; simpl; try done;
    intros ?; simplify_eq/=; repeat split; try done; by eexists.
Qed.

Section ContestAnnouncementFacts.
Variable toLocaleDateString : Z → string.
Variable Number_ofString : string → option Z.

(** X25.  A contest that [createContest] persists is appended with
    status upcoming and no participants.  Its [maxParticipants] is null
    exactly when the request's value is falsy (absent, null, the number
    0, the empty string, false); a truthy value is stored as the number
    it casts to, so a non-empty string that [Number] reads as 0 is
    stored as the number 0.  The announcement is created only when at
    least one student exists, and is then addressed to every current
    student with one push per student; without students no notification
    is persisted and nothing is pushed. *)
Theorem createContest_created
    (errors : list string) (caller : User.t) (body : ContestBody.t)
    (w w' : DB) (c : Contest.t) :
  createContest toLocaleDateString Number_ofString errors caller body w
  = (Sent 201 c, w') →
  contests w' = contests w ++ [c]
  ∧ Contest._id c = nextObjectId w
  ∧ Contest.status c = upcoming
  ∧ Contest.participants c = []
  ∧ (Contest.maxParticipants c = None
     ↔ JsonValue_truthy (ContestBody.maxParticipants body) = false)
  ∧ (∀ v, ContestBody.maxParticipants body = Some v →
          JsonValue_truthy (Some v) = true →
          castNumber Number_ofString v = Contest.maxParticipants c)
  ∧ (∀ s, ContestBody.maxParticipants body = Some (json_string s) →
          s ≠ "" →
          Number_ofString s = Some 0 →
          Contest.maxParticipants c = Some 0)
  ∧ (studentIds (users w) = [] →
     notifications w' = notifications w ∧ emitted w' = emitted w)
  ∧ (studentIds (users w) ≠ [] →
     ∃ n es,
       notifications w' = notifications w ++ [n]
       ∧ Notification.targetUsers n = studentIds (users w)
       ∧ Notification.relatedId n = Some (Contest._id c)
       ∧ emitted w' = emitted w ++ es
       ∧ room <$> es = toString <$> studentIds (users w)).
Proof.
  unfold createContest. destruct (negb _); [done|]. simpl.
  destruct (newContest Number_ofString (nextObjectId w) body) as [c0|]
    eqn:Hnew; [|done].
  destruct (newContest_Some _ _ _ _ Hnew)
    as (Hid & Hst & Hps & _ & Hmax & Hsome).
  assert (Hnull : Contest.maxParticipants c0 = None
                  ↔ JsonValue_truthy (ContestBody.maxParticipants body)
                    = false).
  { destruct (JsonValue_truthy (ContestBody.maxParticipants body)).
    - destruct (Hsome eq_refl) as [m Hm]. rewrite Hm. split; done.
    - injection Hmax as ->. split; done. }
  assert (Hcast : ∀ v, ContestBody.maxParticipants body = Some v →
                       JsonValue_truthy (Some v) = true →
                       castNumber Number_ofString v
                       = Contest.maxParticipants c0).
  { intros v Hv Ht. rewrite Hv, Ht in Hmax. simpl in Hmax. congruence. }
  assert (Hzero : ∀ s, ContestBody.maxParticipants body
                       = Some (json_string s) →
                       s ≠ "" →
                       Number_ofString s = Some 0 →
                       Contest.maxParticipants c0 = Some 0).
  { intros s Hs Hne Hn. rewrite <- (Hcast _ Hs); [done|].
    simpl. by rewrite bool_decide_false. }
  case_bool_decide as Hstudents; simpl; intros [= <- <-]; simpl.
  - split; [done|]. split; [done|]. split; [done|]. split; [done|].
    split; [done|]. split; [done|]. split; [done|]. split.
    + intros Hnil. rewrite Hnil in Hstudents. simpl in Hstudents. lia.
    + intros _. eexists _, _. split; [done|]. split; [done|].
      split; [done|]. split; [done|]. by apply emit_rooms.
  - split; [done|]. split; [done|]. split; [done|]. split; [done|].
    split; [done|]. split; [done|]. split; [done|]. split; [done|].
    intros Hne. destruct (studentIds (users w)); [done|].
    simpl in Hstudents. lia.
Qed.
End ContestAnnouncementFacts.

Lemma createContest_created_witness :
  ∃ c n,
    (createContest sampleLocale sampleNumber [] root quizBody campus).1
    = Sent 201 c
    ∧ Contest.maxParticipants c = Some 0
    ∧ notifications
        (createContest sampleLocale sampleNumber [] root quizBody campus).2
      = [n]
    ∧ Notification.targetUsers n = [1%N; 2%N].
Proof.
  assert (Hrun : ∃ c w',
            createContest sampleLocale sampleNumber [] root quizBody campus
            = (Sent 201 c, w')).
  { eexists _, _. vm_compute. reflexivity. }
  destruct Hrun as (c & w' & Hrun).
  destruct (createContest_created sampleLocale sampleNumber [] root quizBody
              campus w' c Hrun)
    as (_ & _ & _ & _ & _ & _ & Hzero & _ & Hsome).
  destruct Hsome as (n & es & Hn & Ht & _); [discriminate|].
  exists c, n. rewrite Hrun. simpl.
  split; [reflexivity|].
  split; [apply (Hzero "0"); [reflexivity | discriminate | reflexivity]|].
  split; [exact Hn | exact Ht].
Defined.

Lemma updateOne_same {A : Type} `{Document A} (d : A) (c : list A) :
  findById (oid d) c = Some d → updateOne d c = c.
Proof.
  induction c as [|x c IH]; simpl; [done|].
  case_bool_decide; [by intros [= ->] | intros Hd; by rewrite IH].
Qed.

Lemma applyPatch_keeps (patch : ContestPatch.t) (c c' : Contest.t) :
  applyPatch patch c = Some c' →
  Contest._id c' = Contest._id c
  ∧ Contest.participants c' = Contest.participants c
  ∧ (ContestPatch.status patch = Some "cancelled" →
     Contest.status c' = cancelled).
Proof.
  unfold applyPatch.
  destruct (if truthy (ContestPatch.status patch) then _ else _)
    as [s|] eqn:Hs; [|done].
  case_bool_decide; [done|]. intros [= <-]. simpl.
  split; [done|]. split; [done|]. intros Hc. rewrite Hc in Hs.
  simpl in Hs. by injection Hs as <-.
Qed.

(** The database an accepted contest update leaves. *)
Lemma updateContest_updated_state
    (errors : list string) (caller : User.t) (contestId : ObjectId)
    (patch : ContestPatch.t) (w w' : DB) (c' : Contest.t) :
  updateContest errors caller contestId patch w = (Sent 200 c', w') →
  ∃ c,
    findById contestId (contests w) = Some c
    ∧ applyPatch patch c = Some c'
    ∧ w' = notifyParticipants caller c'
             (with_contests (updateOne c' (contests w)) w).
Proof.
  unfold updateContest. destruct (negb _); [done|].
  destruct (findById contestId (contests w)) as [c|]; [|done].
  destruct (applyPatch patch c) as [c0|] eqn:Hp; [|done].
  intros [= <- <-]. by exists c.
Qed.

Lemma notifyParticipants_rest (caller : User.t) (c : Contest.t) (w : DB) :
  users (notifyParticipants caller c w) = users w
  ∧ blogs (notifyParticipants caller c w) = blogs w
  ∧ contests (notifyParticipants caller c w) = contests w
  ∧ payments (notifyParticipants caller c w) = payments w.
Proof. unfold notifyParticipants. by case_bool_decide. Qed.

(** X26.  [updateContest] never touches the participant list, and it
    notifies on every accepted update, whatever the patch holds (the
    empty patch included): a contest with participants gets one
    notification addressed to the users of its participants, in order,
    with one push each; a contest without participants gets none. *)
Theorem updateContest_notifies
    (errors : list string) (caller : User.t) (contestId : ObjectId)
    (patch : ContestPatch.t) (w w' : DB) (c' : Contest.t) :
  updateContest errors caller contestId patch w = (Sent 200 c', w') →
  ∃ c,
    findById contestId (contests w) = Some c
    ∧ findById contestId (contests w') = Some c'
    ∧ Contest.participants c' = Contest.participants c
    ∧ payments w' = payments w
    ∧ users w' = users w
    ∧ (Contest.participants c = [] →
       notifications w' = notifications w ∧ emitted w' = emitted w)
    ∧ (Contest.participants c ≠ [] →
       ∃ n es,
         notifications w' = notifications w ++ [n]
         ∧ Notification.targetUsers n
           = Participant.user <$> Contest.participants c
         ∧ Notification.relatedId n = Some contestId
         ∧ emitted w' = emitted w ++ es
         ∧ room <$> es
           = toString <$> (Participant.user <$> Contest.participants c)).
Proof.
  intros Hrun.
  destruct (updateContest_updated_state _ _ _ _ _ _ _ Hrun)
    as (c & Hc & Hp & ->).
  destruct (applyPatch_keeps _ _ _ Hp) as (Hid & Hps & _).
  destruct (findById_Some _ _ _ Hc) as [Hcid _].
  change (oid c) with (Contest._id c) in Hcid.
  destruct (notifyParticipants_rest caller c'
              (with_contests (updateOne c' (contests w)) w))
    as (Hu & _ & Hcs & Hpay).
  exists c. split; [done|]. split.
  { rewrite Hcs. simpl. rewrite <- Hcid, <- Hid.
    apply (findById_updateOne_eq (contests w) c' c).
    change (oid c') with (Contest._id c'). by rewrite Hid, Hcid. }
  split; [done|]. split; [by rewrite Hpay|]. split; [by rewrite Hu|].
  unfold notifyParticipants. rewrite Hps. split.
  - intros Hnil. rewrite Hnil. simpl. done.
  - intros Hne. rewrite bool_decide_true
      by (destruct (Contest.participants c); [done | simpl; lia]).
    simpl. eexists _, _. split; [done|]. split; [done|].
    split; [by rewrite Hid, Hcid|]. split; [done|]. by apply emit_rooms.
Qed.

Lemma updateContest_notifies_witness :
  ∃ n,
    notifications (updateContest [] root 21 emptyPatch rivals).2 = [n]
    ∧ Notification.targetUsers n = [2%N; 1%N].
Proof.
  destruct (updateContest_notifies [] root 21 emptyPatch rivals
              (updateContest [] root 21 emptyPatch rivals).2 rivalsContest)
    as (c & Hc & _ & _ & _ & _ & _ & Hsome).
  - vm_compute. reflexivity.
  - vm_compute in Hc. injection Hc as <-.
    destruct Hsome as (n & es & Hn & Ht & _); [discriminate|].
    exists n. split; [exact Hn | exact Ht].
Defined.

(** X27.  Cancelling sticks.  After an accepted update whose patch sets
    the status to "cancelled", every registration attempt on the contest
    is refused as closed, at any time and for any caller, and reading
    the contest leaves it cancelled and the database as it is. *)
Theorem updateContest_cancel
    (errors : list string) (caller : User.t) (contestId : ObjectId)
    (patch : ContestPatch.t) (w w' : DB) (c' : Contest.t)
    (now : Z) (student : User.t) :
  updateContest errors caller contestId patch w = (Sent 200 c', w') →
  ContestPatch.status patch = Some "cancelled" →
  Contest.status c' = cancelled
  ∧ registerForContest now student contestId w'
    = (Res 400 (Message "Registration for this contest is closed"), w')
  ∧ getContestById now None contestId w' = (Sent 200 (c', false, None), w').
Proof.
  intros Hrun Hcancel.
  destruct (updateContest_updated_state _ _ _ _ _ _ _ Hrun)
    as (c & Hc & Hp & Hw').
  destruct (applyPatch_keeps _ _ _ Hp) as (Hid & _ & Hst).
  specialize (Hst Hcancel).
  destruct (findById_Some _ _ _ Hc) as [Hcid _].
  change (oid c) with (Contest._id c) in Hcid.
  assert (Hc' : findById contestId (contests w') = Some c').
  { rewrite Hw'.
    destruct (notifyParticipants_rest caller c'
                (with_contests (updateOne c' (contests w)) w))
      as (_ & _ & -> & _).
    simpl. rewrite <- Hcid, <- Hid.
    apply (findById_updateOne_eq (contests w) c' c).
    change (oid c') with (Contest._id c'). by rewrite Hid, Hcid. }
  split; [done|]. split.
  - unfold registerForContest. rewrite Hc'.
    unfold Contest.isRegistrationOpen. rewrite Hst.
    by rewrite andb_false_r.
  - unfold getContestById. rewrite Hc'.
    assert (Hfix : Contest_updateStatus now c' = c').
    { unfold Contest_updateStatus. by rewrite bool_decide_true. }
    rewrite Hfix. f_equal.
    rewrite updateOne_same.
    + by destruct w'.
    + change (oid c') with (Contest._id c'). by rewrite Hid, Hcid.
Qed.

Lemma updateContest_cancel_witness :
  registerForContest 500 alice 20 (updateContest [] root 20 cancelPatch campus).2
  = (Res 400 (Message "Registration for this contest is closed"),
     (updateContest [] root 20 cancelPatch campus).2).
Proof.
  destruct (updateContest_cancel [] root 20 cancelPatch campus
              (updateContest [] root 20 cancelPatch campus).2
              (Contest_with_status cancelled freeContest) 500 alice)
    as (_ & Hreg & _).
  - vm_compute. reflexivity.
  - reflexivity.
  - exact Hreg.
Defined.

(** ** Invariants of the contest participants *)

Lemma Forall_updateOne {A : Type} `{Document A} (P : A → Prop) (d : A)
    (c : list A) :
  Forall P c → P d → Forall P (updateOne d c).
Proof.
  intros Hc Hd. induction Hc as [|x c Hx Hc IH]; simpl; [done|].
  case_bool_decide; by constructor.
Qed.

Lemma findById_Forall {A : Type} `{Document A} (P : A → Prop) (i : ObjectId)
    (d : A) (c : list A) :
  Forall P c → findById i c = Some d → P d.
Proof.
  intros Hc Hd. destruct (findById_Some _ _ _ Hd) as [_ Hin].
  by eapply Forall_forall in Hc.
Qed.

Lemma knows_updateOne (us : list User.t) (d x : User.t) (i : ObjectId) :
  findById (User._id d) us = Some x →
  knows us i → knows (updateOne d us) i.
Proof.
  intros Hd Hi. unfold knows in *. change (User._id d) with (oid d) in *.
  destruct (decide (i = oid d)) as [->|Hne].
  - rewrite (findById_updateOne_eq us d x Hd). by eexists.
  - by rewrite (findById_updateOne_ne i us d).
Qed.

Lemma knows_pushUserContest (i c j : ObjectId) (us : list User.t) :
  knows us j → knows (pushUserContest i c us) j.
Proof.
  unfold pushUserContest. destruct (findById i us) as [u|] eqn:Hu; [|done].
  destruct (findById_Some _ _ _ Hu) as [Hid _].
  apply (knows_updateOne us (User.push_contest c u) u).
  change (User._id (User.push_contest c u)) with (oid u). by rewrite Hid.
Qed.

Lemma settle_users (i : nat) (pid : ObjectId) (ps : list Participant.t) :
  Participant.user <$> alter (Participant.settle pid) i ps
  = Participant.user <$> ps.
Proof.
  revert i. induction ps as [|p ps IH]; intros [|i]; simpl; [done..| |].
  - done.
  - f_equal. apply IH.
Qed.

Lemma settleParticipant_change
    (caller : User.t) (payment : Payment.t) (w : DB) :
  ContestsChange None (contests w)
    (contests (settleParticipant caller payment w)).
Proof.
  unfold settleParticipant.
  destruct (_ && _); [|by constructor 1].
  destruct (findByIdOpt _ _) as [contest|] eqn:Hc; [|by constructor 1].
  destruct (findIndex _ _) as [i|]; [|by constructor 1].
  destruct (Payment.relatedTo payment) as [cid|]; [|done]. simpl in Hc.
  destruct (findById_Some _ _ _ Hc) as [Hid _].
  change (oid contest) with (Contest._id contest) in Hid.
  econstructor 2 with (c := contest); [|reflexivity|].
  - simpl. by rewrite Hid.
  - simpl. apply settle_users.
Qed.

(** What a call does to the users that exist and to the contests: it
    keeps every known user and changes the contests as [ContestsChange]
    allows, or it is a user deletion that pulls the user everywhere. *)
Lemma run_shape
    (hmacSha256Hex : string → string → string) (razorpayKeySecret : string)
    (toLocaleDateString : Z → string)
    (Number_ofString : string → option Z) (profileValid : ObjectId → bool)
    (call : Call) (w : DB) :
  ((∀ i, knows (users w) i →
         knows
           (users
              (run hmacSha256Hex razorpayKeySecret toLocaleDateString
                 Number_ofString profileValid call w))
           i)
   ∧ ContestsChange (joinerOf call) (contests w)
       (contests
          (run hmacSha256Hex razorpayKeySecret toLocaleDateString
             Number_ofString profileValid call w)))
  ∨ ∃ userId,
      users (run hmacSha256Hex razorpayKeySecret toLocaleDateString
               Number_ofString profileValid call w)
      = deleteOne userId (users w)
      ∧ contests
          (run hmacSha256Hex razorpayKeySecret toLocaleDateString
             Number_ofString profileValid call w)
        = pullParticipant userId <$> contests w.
Proof.
  destruct call as [[provider now caller body | caller body
                     | now caller contestId | errors caller body
                     | caller notificationId | caller userId]
                   | errors caller body | errors caller contestId patch
                   | now user contestId | caller userId | notificationId];
    simpl.
  - left. unfold createOrder.
    destruct (OrderBody.amount body); [|by split; [|constructor 1]].
    case_bool_decide; [by split; [|constructor 1]|].
    destruct (negb _); [by split; [|constructor 1]|].
    destruct (_ && _); [by split; [|constructor 1]|].
    destruct (provider _ _); [|by split; [|constructor 1]].
    destruct (parsePurpose _); [|by split; [|constructor 1]].
    destruct (parseRelatedModel _); by split; [|constructor 1].
  - left. unfold verifyPayment.
    destruct (negb _); [by split; [|constructor 1]|].
    destruct (findByIdOpt _ _) as [payment|]; [|by split; [|constructor 1]].
    simpl. set (payment' := Payment.capture _ _ payment).
    set (w1 := with_payments _ w).
    destruct (settleParticipant_rest caller payment' w1) as (Hu & _).
    rewrite Hu. split; [done|].
    apply (settleParticipant_change caller payment' w1).
  - left. unfold registerForContest.
    destruct (findById contestId (contests w)) as [contest|] eqn:Hc;
      [|by split; [|constructor 1]].
    destruct (negb _); [by split; [|constructor 1]|].
    destruct (Contest.isFull contest); [by split; [|constructor 1]|].
    destruct (some _ _) eqn:Hnew; [by split; [|constructor 1]|].
    destruct (findById_Some _ _ _ Hc) as [Hid _].
    change (oid contest) with (Contest._id contest) in Hid.
    assert (Hjoin : ∀ p,
              Participant.user p = User._id caller →
              ContestsChange (Some (User._id caller)) (contests w)
                (updateOne
                   (Contest.with_participants
                      (Contest.participants contest ++ [p]) contest)
                   (contests w))).
    { intros p Hp. econstructor 3 with (c := contest) (p := p);
        [|reflexivity|reflexivity|by rewrite Hp|].
      - simpl. by rewrite Hid.
      - rewrite Hp. intros (q & Hq & Hin)%list_elem_of_fmap.
        unfold some in Hnew.
        assert (Hex : existsb (isParticipant caller)
                        (Contest.participants contest) = true).
        { apply existsb_exists. exists q.
          split; [by apply list_elem_of_In|].
          by apply isParticipant_true. }
        congruence. }
    simpl. case_bool_decide; simpl;
      (split; [intros i Hi; by apply knows_pushUserContest
              | by apply Hjoin]).
  - left. unfold createNotification.
    destruct (negb _); [by split; [|constructor 1]|]. simpl.
    destruct (newNotification _ _ _ _); by split; [|constructor 1].
  - left. unfold markAsRead.
    destruct (findById _ _); [|by split; [|constructor 1]].
    destruct (negb _); by split; [|constructor 1].
  - unfold deleteUser.
    destruct (findById userId (users w)) as [user|] eqn:Hu;
      [|left; by split; [|constructor 1]].
    case_bool_decide; [left; by split; [|constructor 1]|].
    right. destruct (findById_Some _ _ _ Hu) as [Hid _].
    change (oid user) with (User._id user) in Hid.
    exists userId. simpl. by rewrite Hid.
  - left. unfold createContest.
    destruct (negb _); [by split; [|constructor 1]|]. simpl.
    destruct (newContest _ _) as [c|] eqn:Hnew; [|by split; [|constructor 1]].
    destruct (newContest_Some _ _ _ _ Hnew) as (_ & _ & Hps & _).
    case_bool_decide; simpl; (split; [done | by econstructor 4]).
  - left. unfold updateContest.
    destruct (negb _); [by split; [|constructor 1]|].
    destruct (findById contestId (contests w)) as [c|] eqn:Hc;
      [|by split; [|constructor 1]].
    destruct (applyPatch patch c) as [c'|] eqn:Hp;
      [|by split; [|constructor 1]].
    simpl.
    destruct (notifyParticipants_rest caller c'
                (with_contests (updateOne c' (contests w)) w))
      as (-> & _ & -> & _).
    simpl. split; [done|].
    destruct (applyPatch_keeps _ _ _ Hp) as (Hid & Hps & _).
    destruct (findById_Some _ _ _ Hc) as [Hcid _].
    change (oid c) with (Contest._id c) in Hcid.
    econstructor 2 with (c := c); [|reflexivity|by rewrite Hps].
    by rewrite Hid, Hcid.
  - left. unfold getContestById.
    destruct (findById contestId (contests w)) as [c|] eqn:Hc;
      [|by split; [|constructor 1]].
    destruct (findById_Some _ _ _ Hc) as [Hcid _].
    change (oid c) with (Contest._id c) in Hcid.
    destruct (Contest_updateStatus_participants now c) as [Hps Hid].
    assert (Hedit : ContestsChange None (contests w)
                      (updateOne (Contest_updateStatus now c) (contests w))).
    { econstructor 2 with (c := c); [|reflexivity|by rewrite Hps].
      by rewrite Hid, Hcid. }
    destruct user as [caller|]; simpl; [|by split].
    destruct (findRegistration _ _ _) as [[p|]|]; by split.
  - left. unfold makeAdmin.
    destruct (findById userId (users w)) as [u|] eqn:Hu;
      [|by split; [|constructor 1]].
    case_bool_decide; [by split; [|constructor 1]|].
    destruct (negb (User_validate _ _)); [by split; [|constructor 1]|].
    simpl. split; [|by constructor 1].
    intros i Hi. apply (knows_updateOne (users w) (User_with_role admin u) u);
      [|done].
    destruct (findById_Some _ _ _ Hu) as [Hid _].
    change (User._id (User_with_role admin u)) with (oid u). by rewrite Hid.
  - left. unfold deleteNotification.
    destruct (findById _ _); by split; [|constructor 1].
Qed.

Lemma NoDup_fmap_filter {A B : Type} (f : A → B) (P : A → Prop)
    `{∀ x, Decision (P x)} (l : list A) :
  NoDup (f <$> l) → NoDup (f <$> filter P l).
Proof.
  induction l as [|a l IH]; [done|].
  rewrite fmap_cons. intros [Ha Hl]%NoDup_cons. rewrite filter_cons.
  case_decide; [|by apply IH].
  rewrite fmap_cons. apply NoDup_cons. split; [|by apply IH].
  intros (b & Hb & Hin)%list_elem_of_fmap. apply Ha.
  apply list_elem_of_fmap. exists b. split; [done|].
  by apply list_elem_of_filter in Hin as [_ ?].
Qed.

(** X28.  A principal appears at most once among the participants of a
    contest, and no operation breaks that: if it holds of every stored
    contest before a call it holds of every stored contest after it. *)
Theorem run_unique_participants
    (hmacSha256Hex : string → string → string) (razorpayKeySecret : string)
    (toLocaleDateString : Z → string)
    (Number_ofString : string → option Z) (profileValid : ObjectId → bool)
    (call : Call) (w : DB) :
  Forall uniqueParticipants (contests w) →
  Forall uniqueParticipants
    (contests (run hmacSha256Hex razorpayKeySecret toLocaleDateString
                 Number_ofString profileValid call w)).
Proof.
  intros Hinv.
  destruct (run_shape hmacSha256Hex razorpayKeySecret toLocaleDateString
              Number_ofString profileValid call w) as [[_ Hchange] | (userId & _ & ->)].
  - destruct Hchange as [-> | c d Hc -> Hsame | c d p Hc -> Hps _ Hnew
                        | d -> Hps].
    + done.
    + apply Forall_updateOne; [done|]. unfold uniqueParticipants.
      rewrite Hsame. exact (findById_Forall _ _ _ _ Hinv Hc).
    + apply Forall_updateOne; [done|]. unfold uniqueParticipants.
      rewrite Hps, fmap_app. simpl. apply NoDup_app. split; [|split].
      * exact (findById_Forall _ _ _ _ Hinv Hc).
      * intros x Hx Hin. apply list_elem_of_singleton in Hin. by subst x.
      * apply NoDup_singleton.
    + apply Forall_app. split; [done|]. constructor; [|done].
      unfold uniqueParticipants. rewrite Hps. constructor.
  - apply Forall_fmap. eapply Forall_impl; [exact Hinv|].
    intros c Hc. unfold uniqueParticipants, pullParticipant. simpl.
    by apply NoDup_fmap_filter.
Qed.

Lemma run_unique_participants_witness :
  Forall uniqueParticipants
    (contests
       (run sampleHmac "secret" sampleLocale sampleNumber sampleProfile
          (Claimed (RegisterForContest 500 alice 21)) campus)).
Proof.
  apply run_unique_participants.
  apply (bool_decide_unpack
           (Forall (λ c, NoDup (Participant.user <$> Contest.participants c))
              (contests campus))).
  vm_compute. exact I.
Defined.

(** X29.  Every participant refers to a stored user, and no operation
    breaks that, provided the principal of a registration is a stored
    user (as the authentication middleware guarantees): user deletion
    pulls the deleted user out of every contest. *)
Theorem run_participants_known
    (hmacSha256Hex : string → string → string) (razorpayKeySecret : string)
    (toLocaleDateString : Z → string)
    (Number_ofString : string → option Z) (profileValid : ObjectId → bool)
    (call : Call) (w : DB) :
  (∀ u, joinerOf call = Some u → knows (users w) u) →
  Forall (participantsKnown (users w)) (contests w) →
  Forall
    (participantsKnown
       (users (run hmacSha256Hex razorpayKeySecret toLocaleDateString
                 Number_ofString profileValid call w)))
    (contests (run hmacSha256Hex razorpayKeySecret toLocaleDateString
                 Number_ofString profileValid call w)).
Proof.
  intros Hjoiner Hinv.
  destruct (run_shape hmacSha256Hex razorpayKeySecret toLocaleDateString
              Number_ofString profileValid call w) as [[Husers Hchange] | (userId & -> & ->)].
  - assert (Hinv' : Forall
              (participantsKnown
                 (users (run hmacSha256Hex razorpayKeySecret
                           toLocaleDateString
                             Number_ofString profileValid call w))) (contests w)).
    { eapply Forall_impl; [exact Hinv|]. intros c Hc p Hp.
      apply Husers. by apply Hc. }
    destruct Hchange as [-> | c d Hc -> Hsame | c d p Hc -> Hps Hj Hnew
                        | d -> Hps].
    + done.
    + apply Forall_updateOne; [done|]. intros p Hp.
      assert (Hin : Participant.user p
                    ∈ Participant.user <$> Contest.participants c).
      { rewrite <- Hsame. by apply list_elem_of_fmap_2. }
      apply list_elem_of_fmap in Hin as (q & -> & Hq).
      exact (findById_Forall _ _ _ _ Hinv' Hc q Hq).
    + apply Forall_updateOne; [done|]. intros q Hq. rewrite Hps in Hq.
      apply elem_of_app in Hq as [Hq | Hq].
      * exact (findById_Forall _ _ _ _ Hinv' Hc q Hq).
      * apply list_elem_of_singleton in Hq. subst q.
        apply Husers. by apply Hjoiner.
    + apply Forall_app. split; [done|]. constructor; [|done].
      intros p Hp. rewrite Hps in Hp. by apply elem_of_nil in Hp.
  - apply Forall_fmap. eapply Forall_impl; [exact Hinv|].
    intros c Hc p Hp. unfold pullParticipant in Hp. simpl in Hp.
    apply list_elem_of_filter in Hp as [Hne Hp].
    unfold knows. rewrite findById_deleteOne_ne by done. by apply Hc.
Qed.

Lemma run_participants_known_witness :
  Forall
    (participantsKnown
       (users
          (run sampleHmac "secret" sampleLocale sampleNumber sampleProfile
             (Claimed (DeleteUser root 2)) rivals)))
    (contests
       (run sampleHmac "secret" sampleLocale sampleNumber sampleProfile
          (Claimed (DeleteUser root 2)) rivals)).
Proof.
  apply run_participants_known.
  - intros u Hu. discriminate Hu.
  - repeat constructor. intros p Hp. simpl in Hp.
    apply elem_of_cons in Hp as [-> | Hp]; [by eexists|].
    apply list_elem_of_singleton in Hp. subst p. by eexists.
Defined.

(** ** Invariant of the read maps *)

Lemma elem_of_deleteOne {A : Type} `{Document A} (i : ObjectId) (x : A)
    (c : list A) :
  x ∈ deleteOne i c → x ∈ c.
Proof.
  induction c as [|d c IH]; simpl; [done|].
  case_bool_decide; intros Hx; [by constructor|].
  apply elem_of_cons in Hx as [-> | Hx]; [constructor|].
  constructor. by apply IH.
Qed.

Lemma newNotification_isRead
    (i : ObjectId) (caller : User.t) (body : NotificationBody.t) (w : DB)
    (n : Notification.t) :
  newNotification i caller body w = Some n →
  Notification.isRead n = Some ∅.
Proof.
  unfold newNotification.
  destruct (resolveRecipients body w) as [recipients targetUsers].
  destruct (resolveRelation body) as [relatedId notificationType].
  destruct (_ && _); [|done].
  destruct (parseUrgencyLevel _); [|done].
  destruct (parseRelatedTo _); [|done].
  by intros [= <-].
Qed.

(** What a call does to the Notification collection: nothing, it appends
    one record whose read map is empty, it marks one stored record read
    for one of its targets, or it only deletes. *)
Lemma run_notifications
    (hmacSha256Hex : string → string → string) (razorpayKeySecret : string)
    (toLocaleDateString : Z → string)
    (Number_ofString : string → option Z) (profileValid : ObjectId → bool)
    (call : Call) (w : DB) :
  notifications
    (run hmacSha256Hex razorpayKeySecret toLocaleDateString
       Number_ofString profileValid call w)
  = notifications w
  ∨ (∃ n,
       notifications
         (run hmacSha256Hex razorpayKeySecret toLocaleDateString
            Number_ofString profileValid call w)
       = notifications w ++ [n]
       ∧ Notification.isRead n = Some ∅)
  ∨ (∃ n caller,
       findById (Notification._id n) (notifications w) = Some n
       ∧ some (λ userId, bool_decide (toString userId = User.id caller))
           (Notification.targetUsers n) = true
       ∧ notifications
           (run hmacSha256Hex razorpayKeySecret toLocaleDateString
              Number_ofString profileValid call w)
         = updateOne (Notification.setRead (User.id caller) n)
             (notifications w))
  ∨ (∀ x,
       x ∈ notifications
             (run hmacSha256Hex razorpayKeySecret toLocaleDateString
                Number_ofString profileValid call w) →
       x ∈ notifications w).
Proof.
  destruct call as [[provider now caller body | caller body
                     | now caller contestId | errors caller body
                     | caller notificationId | caller userId]
                   | errors caller body | errors caller contestId patch
                   | now user contestId | caller userId | notificationId];
    simpl.
  - left. unfold createOrder.
    destruct (OrderBody.amount body); [|done].
    case_bool_decide; [done|].
    destruct (negb _); [done|].
    destruct (_ && _); [done|].
    destruct (provider _ _); [|done].
    destruct (parsePurpose _); [|done].
    by destruct (parseRelatedModel _).
  - unfold verifyPayment.
    destruct (negb _); [by left|].
    destruct (findByIdOpt _ _) as [payment|]; [|by left].
    right. left. simpl. set (payment' := Payment.capture _ _ payment).
    set (w1 := with_payments _ w).
    destruct (settleParticipant_rest caller payment' w1)
      as (_ & _ & -> & _ & _).
    by eexists.
  - left. unfold registerForContest.
    destruct (findById contestId (contests w)); [|done].
    destruct (negb _); [done|].
    destruct (Contest.isFull _); [done|].
    destruct (some _ _); [done|]. simpl. by case_bool_decide.
  - unfold createNotification.
    destruct (negb _); [by left|]. simpl.
    destruct (newNotification _ _ _ _) as [n|] eqn:Hn; [|by left].
    right. left. exists n. split; [done|].
    by eapply newNotification_isRead.
  - unfold markAsRead.
    destruct (findById notificationId (notifications w)) as [n|] eqn:Hn;
      [|by left].
    destruct (some _ _) eqn:Hs; simpl; [|by left].
    right. right. left. exists n, caller.
    destruct (findById_Some _ _ _ Hn) as [Hid _].
    change (oid n) with (Notification._id n) in Hid.
    split; [by rewrite Hid|]. by split.
  - unfold deleteUser.
    destruct (findById userId (users w)); [|by left].
    case_bool_decide; [by left|].
    right. right. right. simpl. intros x Hx.
    by apply elem_of_deleteMany in Hx as [? _].
  - unfold createContest.
    destruct (negb _); [by left|]. simpl.
    destruct (newContest _ _); [|by left].
    case_bool_decide; simpl; [right; left; by eexists | by left].
  - unfold updateContest.
    destruct (negb _); [by left|].
    destruct (findById contestId (contests w)); [|by left].
    destruct (applyPatch patch _) as [c'|]; [|by left].
    simpl. unfold notifyParticipants.
    case_bool_decide; simpl; [right; left; by eexists | by left].
  - left. unfold getContestById.
    destruct (findById contestId (contests w)); [|done].
    destruct user as [caller|]; simpl; [|done].
    by destruct (findRegistration _ _ _) as [[p|]|].
  - unfold makeAdmin.
    destruct (findById userId (users w)); [|by left].
    case_bool_decide; [by left|].
    destruct (negb (User_validate _ _)); [by left|].
    right. left. simpl. by eexists.
  - unfold deleteNotification.
    destruct (findById notificationId (notifications w)); [|by left].
    right. right. right. simpl. intros x Hx.
    by eapply elem_of_deleteOne.
Qed.

Lemma readersAreTargets_fresh (n : Notification.t) :
  Notification.isRead n = Some ∅ → readersAreTargets n.
Proof.
  intros Hn k. unfold Notification.isReadByUser. rewrite Hn.
  by rewrite lookup_empty.
Qed.

(** X30.  Read flags belong to targets.  If in every stored notification
    each user counted as a reader is one of its targets, the same holds
    after any call: new records start with an empty read map, and the
    only write to a read map is guarded by the target check. *)
Theorem run_readers_are_targets
    (hmacSha256Hex : string → string → string) (razorpayKeySecret : string)
    (toLocaleDateString : Z → string)
    (Number_ofString : string → option Z) (profileValid : ObjectId → bool)
    (call : Call) (w : DB) :
  Forall readersAreTargets (notifications w) →
  Forall readersAreTargets
    (notifications
       (run hmacSha256Hex razorpayKeySecret toLocaleDateString
          Number_ofString profileValid call w)).
Proof.
  intros Hinv.
  destruct (run_notifications hmacSha256Hex razorpayKeySecret
              toLocaleDateString Number_ofString profileValid call w)
    as [-> | [(n & -> & Hn) | [(n & caller & Hfind & Htarget & ->) | Hsub]]].
  - done.
  - apply Forall_app. split; [done|]. constructor; [|done].
    by apply readersAreTargets_fresh.
  - apply Forall_updateOne; [done|]. intros k Hk.
    destruct (decide (k = User.id caller)) as [-> | Hne].
    + unfold some in Htarget.
      apply existsb_exists in Htarget as (u & Hu & Heq).
      exists u. split; [by apply list_elem_of_In|].
      by apply bool_decide_eq_true in Heq.
    + rewrite isReadByUser_setRead_other in Hk by done.
      exact (findById_Forall _ _ _ _ Hinv Hfind k Hk).
  - apply Forall_forall. intros x Hx.
    eapply Forall_forall in Hinv; [exact Hinv|]. by apply Hsub.
Qed.

Lemma run_readers_are_targets_witness :
  Forall readersAreTargets
    (notifications
       (run sampleHmac "secret" sampleLocale sampleNumber sampleProfile
          (Claimed (MarkAsRead alice 40)) noticeBoard)).
Proof.
  apply run_readers_are_targets.
  repeat constructor. by apply readersAreTargets_fresh.
Defined.
